(** * gitGo: a book service over one table, with an in-memory mirror

    The repository holds two variants of the same server program:
    - [src/main.go]: the five [/books] routes behind [authMiddleware], the
      secret read from the process environment on every request, the
      listening address fixed to [":8000"];
    - a second Go file with the same handlers plus [Config], [loadConfig]
      and [getEnv], a [HealthCheck] route and an [authMiddleware] that closes
      over the configured key.

    Both are embedded below, [MainGo] for the first and [App] for the second,
    over a common model of [net/http] values and of the table
    [bz.dbo.tbl_book].  Handlers are pure functions from the request, the
    outcome of the database calls and the state (the package-level slice
    [books] and the table) to the written response and the next state.
    Output of [log.Printf]/[log.Println] is not part of the model. *)

From Stdlib Require Import ZArith.
From stdpp Require Import base option list strings pretty gmap.

Local Open Scope string_scope.
Local Open Scope Z_scope.

(** ** Data model *)

(** [type Book struct] (identical in both files).  [Year] is a Go [int]; no
    arithmetic is ever done on it, so it is kept as an integer. *)
Record Book := mkBook {
  ID : string;
  Title : string;
  Author : string;
  Year : Z;
  Regdate : string
}.

#[global] Instance Book_eq_dec : EqDecision Book.
Proof. solve_decision. Defined.

(** Modelled from the spec: the table [bz.dbo.tbl_book] is external and its
    schema is not in the repository.  A row has the columns the specification
    lists and the statements of the handlers name: [id], [title], [author],
    [year], [regdate].  The column [regdate] is a date-time ([GETDATE()]); it
    is kept as a number of ticks so that [ORDER BY regdate] has its meaning. *)
Record Row := mkRow {
  rid : string;
  rtitle : string;
  rauthor : string;
  ryear : Z;
  rregdate : Z
}.

#[global] Instance Row_eq_dec : EqDecision Row.
Proof. solve_decision. Defined.

(** How a date-time column reaches a Go string.  The handlers scan the column
    straight into [Book.Regdate] ([scanString], done by [database/sql]); the
    start-up loop of [main] scans it into a [time.Time] and renders it with
    [regdate.Format("2006-01-02 15:04:05")] ([formatLayout]).  Both renderings
    live outside the repository and are left abstract. *)
Class TimeFormat := {
  scanString : Z → string;
  formatLayout : Z → string
}.

(** The process state shared by all requests: [var books []Book] and the
    table behind [var db *sql.DB]. *)
Record State := mkState {
  books : list Book;
  table : list Row
}.

(** ** What the outside world decides for one request *)

(** [execErr]: the error of [db.Exec], if any; [rowsAffectedErr]: the error of
    [result.RowsAffected()]; [queryErr]: an error of [QueryRow(...).Scan]
    other than an empty result; [newId]: the id the engine gives to an
    inserted row (the [INSERT] does not mention the column); [getdate]: the
    value of [GETDATE()]; [timeNow]: [time.Now().Format(time.RFC3339)]. *)
Record Env := mkEnv {
  execErr : option string;
  rowsAffectedErr : option string;
  queryErr : option string;
  newId : string;
  getdate : Z;
  timeNow : string
}.

(** ** net/http *)

(** What [json.NewEncoder(w).Encode] and [http.Error] put on the wire. *)
Inductive Output :=
| EncBook (b : Book)
| EncBooks (bs : list Book)
| EncMap (kv : list (string * string))
| PlainText (s : string).

Record ResponseWriter := mkResponseWriter {
  wheader : gmap string string;
  wcode : option Z;
  wbody : list Output
}.

Definition newResponseWriter : ResponseWriter := mkResponseWriter ∅ None [].

(** [w.Header().Set(k, v)] *)
Definition HeaderSet (k v : string) (w : ResponseWriter) : ResponseWriter :=
  mkResponseWriter (<[k := v]> (wheader w)) (wcode w) (wbody w).

(** [w.WriteHeader(c)]: only the first call fixes the status. *)
Definition WriteHeader (c : Z) (w : ResponseWriter) : ResponseWriter :=
  match wcode w with
  | None => mkResponseWriter (wheader w) (Some c) (wbody w)
  | Some _ => w
  end.

Definition StatusOK : Z := 200.
Definition StatusCreated : Z := 201.
Definition StatusMovedPermanently : Z := 301.
Definition StatusBadRequest : Z := 400.
Definition StatusUnauthorized : Z := 401.
Definition StatusNotFound : Z := 404.
Definition StatusMethodNotAllowed : Z := 405.
Definition StatusInternalServerError : Z := 500.

(** [json.NewEncoder(w).Encode(v)]: a write; a write before any
    [WriteHeader] sends status 200. *)
Definition Encode (v : Output) (w : ResponseWriter) : ResponseWriter :=
  let w' := WriteHeader StatusOK w in
  mkResponseWriter (wheader w') (wcode w') (wbody w' ++ [v]).

(** The status the client sees. *)
Definition StatusCode (w : ResponseWriter) : Z := default StatusOK (wcode w).

(** A request as the handlers see it.  [URLPath] holds the segments of
    [r.URL.Path], each following one slash: [["books"; "7"]] for [/books/7],
    [["books"; ""]] for [/books/], [[""]] for [/] and [[]] for the empty
    path; [Vars] is what [mux.Vars(r)] returns; [Body] is the result of
    [json.NewDecoder(r.Body).Decode(&book)], [None] when it returns an
    error. *)
Record Request := mkRequest {
  Method : string;
  URLPath : list string;
  Header : gmap string (list string);
  Vars : gmap string string;
  Body : option Book
}.

(** [r.Header.Get(key)]: the first value of the header, [""] when absent. *)
Definition HeaderGet (h : gmap string (list string)) (key : string) : string :=
  match h !! key with
  | Some (v :: _) => v
  | _ => ""
  end.

(** [params["id"]] on a Go map: the zero value when the key is missing. *)
Definition mapIndex (m : gmap string string) (key : string) : string :=
  default "" (m !! key).

Definition HandlerFunc : Type :=
  Env → ResponseWriter → Request → State → ResponseWriter * State.

(** ** The table and the SQL statements of the handlers *)

(** [INSERT INTO bz.dbo.tbl_book (title, author, year, regdate)
     VALUES (?, ?, ?, GETDATE())] *)
Definition sqlInsert (env : Env) (title author : string) (year : Z)
    (tbl : list Row) : list Row :=
  tbl ++ [mkRow (newId env) title author year (getdate env)].

(** [SELECT TOP 1 id, title, author, year, regdate FROM bz.dbo.tbl_book
     ORDER BY regdate DESC]: a row with the greatest [regdate].  Among rows
    with equal [regdate] the engine may pick any; here the earliest in table
    order is picked. *)
Fixpoint sqlSelectTop1 (tbl : list Row) : option Row :=
  match tbl with
  | [] => None
  | r :: tbl' =>
      match sqlSelectTop1 tbl' with
      | Some r' => if decide (rregdate r < rregdate r') then Some r' else Some r
      | None => Some r
      end
  end.

(** [UPDATE bz.dbo.tbl_book SET title = ?, author = ?, year = ? WHERE id = ?]
    with its count of affected rows. *)
Definition sqlUpdate (id title author : string) (year : Z)
    (tbl : list Row) : list Row * Z :=
  (map (λ r, if decide (rid r = id)
             then mkRow (rid r) title author year (rregdate r) else r) tbl,
   Z.of_nat (length (filter (λ r, rid r = id) tbl))).

(** [SELECT id, title, author, year, regdate FROM bz.dbo.tbl_book
     WHERE id = ?], first row. *)
Definition sqlSelectById (id : string) (tbl : list Row) : option Row :=
  head (filter (λ r, rid r = id) tbl).

(** [DELETE FROM bz.dbo.tbl_book WHERE id = ?] with its count of affected
    rows. *)
Definition sqlDelete (id : string) (tbl : list Row) : list Row * Z :=
  (filter (λ r, rid r ≠ id) tbl,
   Z.of_nat (length (filter (λ r, rid r = id) tbl))).

(** [db.Exec(query, args...)]: an error leaves the table as it was. *)
Definition dbExec {A : Type} (env : Env) (stmt : list Row → A)
    (tbl : list Row) : string + A :=
  match execErr env with
  | Some e => inl e
  | None => inr (stmt tbl)
  end.

(** [result.RowsAffected()] *)
Definition RowsAffected (env : Env) (n : Z) : string + Z :=
  match rowsAffectedErr env with
  | Some e => inl e
  | None => inr n
  end.

Section Scan.
Context `{TimeFormat}.

(** [Scan(&b.ID, &b.Title, &b.Author, &b.Year, &b.Regdate)] *)
Definition scanRow (r : Row) : Book :=
  mkBook (rid r) (rtitle r) (rauthor r) (ryear r) (scanString (rregdate r)).

(** [db.QueryRow(...).Scan(...)]: an empty result is [sql.ErrNoRows]. *)
Definition dbQueryRow (env : Env) (result : option Row) : string + Book :=
  match queryErr env with
  | Some e => inl e
  | None =>
      match result with
      | None => inl "sql: no rows in result set"
      | Some r => inr (scanRow r)
      end
  end.

(** The body of the start-up loop [for rows.Next()]: scan into locals, build
    the [Book] with the formatted [regdate]. *)
Definition loadRow (r : Row) : Book :=
  mkBook (rid r) (rtitle r) (rauthor r) (ryear r) (formatLayout (rregdate r)).
End Scan.

(** [for i, b := range books { if b.ID == id { ... } }]: the first index whose
    entry has the id, with that entry. *)
Fixpoint rangeFirst (id : string) (bs : list Book) (i : nat) : option (nat * Book) :=
  match bs with
  | [] => None
  | b :: bs' => if decide (ID b = id) then Some (i, b) else rangeFirst id bs' (S i)
  end.

(** [map[string]string{"error": msg}] and [{"message": msg}] *)
Definition errorBody (msg : string) : Output := EncMap [("error", msg)].
Definition messageBody (msg : string) : Output := EncMap [("message", msg)].

(** ** gorilla/mux, as far as [main] uses it *)

(** A path template such as ["/books/{id}"], split at the slashes. *)
Inductive Segment :=
| Lit (s : string)
| Var (name : string).

Record Route := mkRoute {
  rpath : list Segment;
  rhandler : HandlerFunc;
  rmethod : string
}.

(** [router.HandleFunc(path, f).Methods(m)]: routes are tried in the order of
    registration. *)
Definition HandleFunc (path : list Segment) (f : HandlerFunc) (m : string)
    (router : list Route) : list Route :=
  router ++ [mkRoute path f m].

(** A variable [{name}] matches one non-empty path segment. *)
Fixpoint matchPath (tpl : list Segment) (path : list string)
    (vars : gmap string string) : option (gmap string string) :=
  match tpl, path with
  | [], [] => Some vars
  | Lit s :: tpl', p :: path' =>
      if decide (s = p) then matchPath tpl' path' vars else None
  | Var x :: tpl', p :: path' =>
      if decide (p = "") then None else matchPath tpl' path' (<[x := p]> vars)
  | _, _ => None
  end.

(** [path.Clean] on the segments of a rooted path, [kept] being the segments
    kept so far: an empty segment (a doubled slash) and ["."] are dropped,
    [".."] drops the segment before it, and nothing at the root. *)
Fixpoint cleanSegments (kept path : list string) : list string :=
  match path with
  | [] => kept
  | s :: path' =>
      if decide (s = "" ∨ s = ".") then cleanSegments kept path'
      else if decide (s = "..") then cleanSegments (removelast kept) path'
      else cleanSegments (kept ++ [s]) path'
  end.

(** [cleanPath] of mux: the empty path becomes [/]; otherwise [path.Clean],
    with the trailing slash put back when the path had one. *)
Definition cleanPath (path : list string) : list string :=
  match path with
  | [] => [""]
  | _ =>
      let np := cleanSegments [] path in
      if decide (last path = Some "") then np ++ [""]
      else if decide (np = []) then [""] else np
  end.

(** The path as a string again, for the [Location] header. *)
Definition pathString (path : list string) : string :=
  String.concat "" (map (λ s, "/" ++ s)%string path).

Inductive RouteMatch :=
| Matched (h : HandlerFunc) (vars : gmap string string)
| MethodMismatch
| NoMatch
| Redirect (path : list string).

(** [Router.Match]: the first route whose path template and method match;
    [ErrMethodMismatch] when only path templates match. *)
Fixpoint routeMatch (router : list Route) (r : Request) : RouteMatch :=
  match router with
  | [] => NoMatch
  | rt :: router' =>
      match matchPath (rpath rt) (URLPath r) ∅ with
      | Some vars =>
          if decide (rmethod rt = Method r) then Matched (rhandler rt) vars
          else match routeMatch router' r with
               | NoMatch => MethodMismatch
               | m => m
               end
      | None => routeMatch router' r
      end
  end.

(** What [Router.ServeHTTP] finds for a request: a path that [cleanPath]
    changes is redirected to its clean form before any route is tried
    ([main] builds the router with [mux.NewRouter()], which cleans paths);
    a clean path is matched against the routes. *)
Definition muxMatch (router : list Route) (r : Request) : RouteMatch :=
  if decide (cleanPath (URLPath r) = URLPath r) then routeMatch router r
  else Redirect (cleanPath (URLPath r)).

(** [ServeHTTP] of [mux.Router]: the matched handler runs on the request with
    its path variables set; a path that is not clean is answered 301 with the
    clean path in [Location]; otherwise 405 or [http.NotFound]. *)
Definition ServeHTTP (router : list Route) : HandlerFunc := λ env w r st,
  match muxMatch router r with
  | Matched h vars =>
      h env w (mkRequest (Method r) (URLPath r) (Header r) vars (Body r)) st
  | MethodMismatch => (WriteHeader StatusMethodNotAllowed w, st)
  | NoMatch => (Encode (PlainText "404 page not found") (WriteHeader StatusNotFound w), st)
  | Redirect path =>
      (WriteHeader StatusMovedPermanently (HeaderSet "Location" (pathString path) w), st)
  end.

(** ** Start-up *)

(** What the outside world decides while [main] starts: whether [.env]
    exists ([os.Stat]), what [godotenv.Load] reads from it ([None] when it
    returns an error), and the errors of [sql.Open], [db.Ping], the two
    [db.Query] calls, [rows.Columns] and [rows.Scan].  [nextErr = Some n]:
    fetching the result set fails once [n] rows have been handed over, so the
    next [rows.Next()] returns false with the error kept in [rows.Err()]. *)
Record Boot := mkBoot {
  dotenvExists : bool;
  dotenvVars : option (gmap string string);
  openErr : option string;
  pingErr : option string;
  probeErr : option string;
  columnsErr : option string;
  selectErr : option string;
  nextErr : option nat;
  scanErr : option string
}.

(** The rows for which [rows.Next()] returns true: all rows of the result
    set, or the rows before the fetch error. *)
Definition rowsNext (boot : Boot) (rows : list Row) : list Row :=
  match nextErr boot with
  | Some n => take n rows
  | None => rows
  end.

(** How [main] ends: [log.Fatal], or the call of [http.ListenAndServe] with
    its address, the registered routes, the process environment and the state
    the handlers start from. *)
Inductive Process :=
| LogFatal (msg : string)
| ListenAndServe (addr : string) (router : list Route)
    (environ : gmap string string) (st : State).

(** [os.Getenv] *)
Definition Getenv (environ : gmap string string) (key : string) : string :=
  default "" (environ !! key).

(** [godotenv.Load]: variables of the file are set unless the environment
    already has them. *)
Definition godotenvLoad (environ vars : gmap string string) : gmap string string :=
  environ ∪ vars.

(** The unauthenticated replies of both [authMiddleware]s. *)
Definition keyRequired : string := "API 키가 필요합니다".
Definition keyInvalid : string := "유효하지 않은 API 키입니다".

(** ** The configurable server (second Go file) *)

Module App.

(** [type Config struct] *)
Record Config := mkConfig {
  DBServer : string;
  DBUser : string;
  DBPassword : string;
  DBPort : string;
  DBName : string;
  APIKey : string;
  Port : string
}.

(** [func getEnv(key, defaultValue string) string] *)
Definition getEnv (environ : gmap string string) (key defaultValue : string) : string :=
  let value := Getenv environ key in
  if decide (value ≠ "") then value else defaultValue.

(** The first statement of [loadConfig]: load [.env] when [os.Stat] finds
    it; a failed load only logs a warning. *)
Definition loadDotenv (environ : gmap string string) (boot : Boot) : gmap string string :=
  if dotenvExists boot then
    match dotenvVars boot with
    | Some vars => godotenvLoad environ vars
    | None => environ
    end
  else environ.

Definition missingConfig : string :=
  "필수 환경변수가 설정되지 않았습니다. DB_SERVER, DB_USER, DB_PASSWORD, DB_NAME, API_KEY를 확인하세요.".

(** [func loadConfig() *Config]; [inl] is the message of [log.Fatal]. *)
Definition loadConfig (environ : gmap string string) (boot : Boot) : string + Config :=
  let environ := loadDotenv environ boot in
  let config := mkConfig
    (getEnv environ "DB_SERVER" "")
    (getEnv environ "DB_USER" "")
    (getEnv environ "DB_PASSWORD" "")
    (getEnv environ "DB_PORT" "1433")
    (getEnv environ "DB_NAME" "")
    (getEnv environ "API_KEY" "")
    (getEnv environ "PORT" "8000") in
  if decide (DBServer config = "" ∨ DBUser config = "" ∨ DBPassword config = "" ∨
             DBName config = "" ∨ APIKey config = "")
  then inl missingConfig
  else inr config.

(** [func authMiddleware(apiKey string) func(http.HandlerFunc) http.HandlerFunc] *)
Definition authMiddleware (apiKey : string) (next : HandlerFunc) : HandlerFunc :=
  λ env w r st,
    let requestAPIKey := HeaderGet (Header r) "X-API-Key" in
    if decide (requestAPIKey = "") then
      (Encode (errorBody keyRequired) (WriteHeader StatusUnauthorized w), st)
    else if decide (requestAPIKey ≠ apiKey) then
      (Encode (errorBody keyInvalid) (WriteHeader StatusUnauthorized w), st)
    else next env w r st.

(** [func connectDB(config *Config)]: [sql.Open], then [db.Ping]. *)
Definition connString (config : Config) : string :=
  "server=" ++ DBServer config ++ ";user id=" ++ DBUser config ++
  ";password=" ++ DBPassword config ++ ";port=" ++ DBPort config ++
  ";database=" ++ DBName config.

Definition connectDB (config : Config) (boot : Boot) : string + string :=
  match openErr boot with
  | Some e => inl ("DB 연결 실패:" ++ e)
  | None =>
      match pingErr boot with
      | Some e => inl ("DB 연결 테스트 실패:" ++ e)
      | None => inr (connString config)
      end
  end.

(** [func HealthCheck(w http.ResponseWriter, r *http.Request)] *)
Definition HealthCheck : HandlerFunc := λ env w r st,
  let w := HeaderSet "Content-Type" "application/json" w in
  (Encode (EncMap [("status", "healthy"); ("time", timeNow env)]) w, st).

(** [func GetBooks] *)
Definition GetBooks : HandlerFunc := λ env w r st,
  let w := HeaderSet "Content-Type" "application/json" w in
  (Encode (EncBooks (books st)) w, st).

(** [func GetBook] *)
Definition GetBook : HandlerFunc := λ env w r st,
  let w := HeaderSet "Content-Type" "application/json" w in
  let params := Vars r in
  let id := mapIndex params "id" in
  match rangeFirst id (books st) 0 with
  | Some (_, book) => (Encode (EncBook book) w, st)
  | None =>
      (Encode (errorBody "책을 찾을 수 없습니다") (WriteHeader StatusNotFound w), st)
  end.

Section Handlers.
Context `{TimeFormat}.

(** [func CreateBook] *)
Definition CreateBook : HandlerFunc := λ env w r st,
  let w := HeaderSet "Content-Type" "application/json" w in
  match Body r with
  | None =>
      (Encode (errorBody "잘못된 요청 형식입니다") (WriteHeader StatusBadRequest w), st)
  | Some book =>
      match dbExec env (sqlInsert env (Title book) (Author book) (Year book)) (table st) with
      | inl err =>
          (Encode (errorBody "책 정보 추가 실패") (WriteHeader StatusInternalServerError w), st)
      | inr tbl =>
          match dbQueryRow env (sqlSelectTop1 tbl) with
          | inl err =>
              (Encode (errorBody "추가된 책 정보 조회 실패")
                      (WriteHeader StatusInternalServerError w),
               mkState (books st) tbl)
          | inr newBook =>
              (Encode (EncBook newBook) (WriteHeader StatusCreated w),
               mkState (books st ++ [newBook]) tbl)
          end
      end
  end.

(** [func UpdateBook] *)
Definition UpdateBook : HandlerFunc := λ env w r st,
  let w := HeaderSet "Content-Type" "application/json" w in
  let params := Vars r in
  let id := mapIndex params "id" in
  match Body r with
  | None =>
      (Encode (errorBody "잘못된 요청 형식입니다") (WriteHeader StatusBadRequest w), st)
  | Some book =>
      match dbExec env (sqlUpdate id (Title book) (Author book) (Year book)) (table st) with
      | inl err =>
          (Encode (errorBody "책 정보 수정 실패") (WriteHeader StatusInternalServerError w), st)
      | inr (tbl, result) =>
          match RowsAffected env result with
          | inl err =>
              (Encode (errorBody "수정 결과 확인 실패")
                      (WriteHeader StatusInternalServerError w),
               mkState (books st) tbl)
          | inr rowsAffected =>
              if decide (rowsAffected = 0) then
                (Encode (errorBody "수정할 책을 찾을 수 없습니다")
                        (WriteHeader StatusNotFound w),
                 mkState (books st) tbl)
              else
                match dbQueryRow env (sqlSelectById id tbl) with
                | inl err =>
                    (Encode (errorBody "수정된 책 정보 조회 실패")
                            (WriteHeader StatusInternalServerError w),
                     mkState (books st) tbl)
                | inr updatedBook =>
                    let books' :=
                      match rangeFirst id (books st) 0 with
                      | Some (i, _) => <[i := updatedBook]> (books st)
                      | None => books st
                      end in
                    (Encode (EncBook updatedBook) w, mkState books' tbl)
                end
          end
      end
  end.
End Handlers.

(** [func DeleteBook] *)
Definition DeleteBook : HandlerFunc := λ env w r st,
  let w := HeaderSet "Content-Type" "application/json" w in
  let params := Vars r in
  let id := mapIndex params "id" in
  match dbExec env (sqlDelete id) (table st) with
  | inl err =>
      (Encode (errorBody "책 삭제 실패") (WriteHeader StatusInternalServerError w), st)
  | inr (tbl, result) =>
      match RowsAffected env result with
      | inl err =>
          (Encode (errorBody "삭제 결과 확인 실패") (WriteHeader StatusInternalServerError w),
           mkState (books st) tbl)
      | inr rowsAffected =>
          if decide (rowsAffected = 0) then
            (Encode (errorBody "삭제할 책을 찾을 수 없습니다") (WriteHeader StatusNotFound w),
             mkState (books st) tbl)
          else
            let books' :=
              match rangeFirst id (books st) 0 with
              | Some (i, _) => (take i (books st) ++ drop (S i) (books st))%list
              | None => books st
              end in
            (Encode (messageBody "책이 성공적으로 삭제되었습니다") (WriteHeader StatusOK w),
             mkState books' tbl)
      end
  end.

Section Main.
Context `{TimeFormat}.

(** The body of the loop [for rows.Next()] of [main], over the rows that
    [rows.Next()] hands over. *)
Fixpoint scanRows (boot : Boot) (rows : list Row) (books : list Book)
    : string + list Book :=
  match rows with
  | [] => inr books
  | r :: rows' =>
      match scanErr boot with
      | Some e => inl ("데이터 스캔 실패:" ++ e)
      | None => scanRows boot rows' (books ++ [loadRow r])
      end
  end.

(** The loop [for rows.Next()] of [main] over the rows of the result set.
    It ends when [rows.Next()] returns false, at the end of the rows or at a
    fetch error; [main] does not call [rows.Err()] afterwards, so both ends
    look the same to it. *)
Definition loadBooks (boot : Boot) (rows : list Row) (books : list Book)
    : string + list Book :=
  scanRows boot (rowsNext boot rows) books.

(** The routes of [main], in the order of registration. *)
Definition routes (auth : HandlerFunc → HandlerFunc) : list Route :=
  HandleFunc [Lit "books"; Var "id"] (auth DeleteBook) "DELETE"
    (HandleFunc [Lit "books"; Var "id"] (auth UpdateBook) "PUT"
      (HandleFunc [Lit "books"] (auth CreateBook) "POST"
        (HandleFunc [Lit "books"; Var "id"] (auth GetBook) "GET"
          (HandleFunc [Lit "books"] (auth GetBooks) "GET"
            (HandleFunc [Lit "health"] HealthCheck "GET" []))))).

(** [func main()], for a process environment, the start-up outcomes and
    the rows the table holds. *)
Definition main (environ : gmap string string) (boot : Boot) (tbl : list Row) : Process :=
  match loadConfig environ boot with
  | inl msg => LogFatal msg
  | inr config =>
      match connectDB config boot with
      | inl msg => LogFatal msg
      | inr _ =>
          match probeErr boot with
          | Some e => LogFatal ("DB 조회 실패:" ++ e)
          | None =>
              match columnsErr boot with
              | Some e => LogFatal ("컬럼 정보 조회 실패:" ++ e)
              | None =>
                  match selectErr boot with
                  | Some e => LogFatal ("DB 조회 실패:" ++ e)
                  | None =>
                      match loadBooks boot tbl [] with
                      | inl msg => LogFatal msg
                      | inr bs =>
                          let auth := authMiddleware (APIKey config) in
                          ListenAndServe (":" ++ Port config) (routes auth)
                            (loadDotenv environ boot) (mkState bs tbl)
                      end
                  end
              end
          end
      end
  end.
End Main.

End App.

(** ** The server of [src/main.go] *)

Module MainGo.

(** [func authMiddleware(next http.HandlerFunc) http.HandlerFunc]; the
    secret is [os.Getenv("API_KEY")], read when the request arrives. *)
Definition authMiddleware (environ : gmap string string) (next : HandlerFunc) : HandlerFunc :=
  λ env w r st,
    let apiKey := HeaderGet (Header r) "X-API-Key" in
    if decide (apiKey = "") then
      (Encode (errorBody keyRequired) (WriteHeader StatusUnauthorized w), st)
    else if decide (apiKey ≠ Getenv environ "API_KEY") then
      (Encode (errorBody keyInvalid) (WriteHeader StatusUnauthorized w), st)
    else next env w r st.

(** [func connectDB()]: [godotenv.Load] must succeed; the five variables are
    read as they are; then [sql.Open] and [db.Ping].  The result is the
    environment after the load, with the connection string. *)
Definition connString (environ : gmap string string) : string :=
  "server=" ++ Getenv environ "DB_SERVER" ++ ";user id=" ++ Getenv environ "DB_USER" ++
  ";password=" ++ Getenv environ "DB_PASSWORD" ++ ";port=" ++ Getenv environ "DB_PORT" ++
  ";database=" ++ Getenv environ "DB_NAME".

Definition connectDB (environ : gmap string string) (boot : Boot)
    : string + (gmap string string * string) :=
  match (if dotenvExists boot then dotenvVars boot else None) with
  | None => inl "Error loading .env file"
  | Some vars =>
      let environ := godotenvLoad environ vars in
      match openErr boot with
      | Some e => inl ("DB 연결 실패:" ++ e)
      | None =>
          match pingErr boot with
          | Some e => inl ("DB 연결 테스트 실패:" ++ e)
          | None => inr (environ, connString environ)
          end
      end
  end.

(** [func GetBooks] *)
Definition GetBooks : HandlerFunc := λ env w r st,
  (Encode (EncBooks (books st)) w, st).

(** [func GetBook] *)
Definition GetBook : HandlerFunc := λ env w r st,
  let params := Vars r in
  let id := mapIndex params "id" in
  match rangeFirst id (books st) 0 with
  | Some (_, book) => (Encode (EncBook book) w, st)
  | None =>
      (Encode (errorBody "책을 찾을 수 없습니다") (WriteHeader StatusNotFound w), st)
  end.

Section Handlers.
Context `{TimeFormat}.

(** [func CreateBook] *)
Definition CreateBook : HandlerFunc := λ env w r st,
  match Body r with
  | None =>
      (Encode (errorBody "잘못된 요청 형식입니다") (WriteHeader StatusBadRequest w), st)
  | Some book =>
      match dbExec env (sqlInsert env (Title book) (Author book) (Year book)) (table st) with
      | inl err =>
          (Encode (errorBody ("책 정보 추가 실패: " ++ err))
                  (WriteHeader StatusInternalServerError w), st)
      | inr tbl =>
          match dbQueryRow env (sqlSelectTop1 tbl) with
          | inl err =>
              (Encode (errorBody "추가된 책 정보 조회 실패")
                      (WriteHeader StatusInternalServerError w),
               mkState (books st) tbl)
          | inr newBook =>
              (Encode (EncBook newBook) (WriteHeader StatusCreated w),
               mkState (books st ++ [newBook]) tbl)
          end
      end
  end.

(** [func UpdateBook] *)
Definition UpdateBook : HandlerFunc := λ env w r st,
  let params := Vars r in
  let id := mapIndex params "id" in
  match Body r with
  | None =>
      (Encode (errorBody "잘못된 요청 형식입니다") (WriteHeader StatusBadRequest w), st)
  | Some book =>
      match dbExec env (sqlUpdate id (Title book) (Author book) (Year book)) (table st) with
      | inl err =>
          (Encode (errorBody ("책 정보 수정 실패: " ++ err))
                  (WriteHeader StatusInternalServerError w), st)
      | inr (tbl, result) =>
          match RowsAffected env result with
          | inl err =>
              (Encode (errorBody "수정 결과 확인 실패")
                      (WriteHeader StatusInternalServerError w),
               mkState (books st) tbl)
          | inr rowsAffected =>
              if decide (rowsAffected = 0) then
                (Encode (errorBody "수정할 책을 찾을 수 없습니다")
                        (WriteHeader StatusNotFound w),
                 mkState (books st) tbl)
              else
                match dbQueryRow env (sqlSelectById id tbl) with
                | inl err =>
                    (Encode (errorBody "수정된 책 정보 조회 실패")
                            (WriteHeader StatusInternalServerError w),
                     mkState (books st) tbl)
                | inr updatedBook =>
                    let books' :=
                      match rangeFirst id (books st) 0 with
                      | Some (i, _) => <[i := updatedBook]> (books st)
                      | None => books st
                      end in
                    (Encode (EncBook updatedBook) w, mkState books' tbl)
                end
          end
      end
  end.
End Handlers.

(** [func DeleteBook] *)
Definition DeleteBook : HandlerFunc := λ env w r st,
  let params := Vars r in
  let id := mapIndex params "id" in
  match dbExec env (sqlDelete id) (table st) with
  | inl err =>
      (Encode (errorBody ("책 삭제 실패: " ++ err)) (WriteHeader StatusInternalServerError w), st)
  | inr (tbl, result) =>
      match RowsAffected env result with
      | inl err =>
          (Encode (errorBody "삭제 결과 확인 실패") (WriteHeader StatusInternalServerError w),
           mkState (books st) tbl)
      | inr rowsAffected =>
          if decide (rowsAffected = 0) then
            (Encode (errorBody "삭제할 책을 찾을 수 없습니다") (WriteHeader StatusNotFound w),
             mkState (books st) tbl)
          else
            let books' :=
              match rangeFirst id (books st) 0 with
              | Some (i, _) => (take i (books st) ++ drop (S i) (books st))%list
              | None => books st
              end in
            (Encode (messageBody "책이 성공적으로 삭제되었습니다") (WriteHeader StatusOK w),
             mkState books' tbl)
      end
  end.

Section Main.
Context `{TimeFormat}.

(** The body of the loop [for rows.Next()] of [main], over the rows that
    [rows.Next()] hands over. *)
Fixpoint scanRows (boot : Boot) (rows : list Row) (books : list Book)
    : string + list Book :=
  match rows with
  | [] => inr books
  | r :: rows' =>
      match scanErr boot with
      | Some e => inl ("데이터 스캔 실패:" ++ e)
      | None => scanRows boot rows' (books ++ [loadRow r])
      end
  end.

(** The loop [for rows.Next()] of [main] over the rows of the result set.
    It ends when [rows.Next()] returns false, at the end of the rows or at a
    fetch error; [main] does not call [rows.Err()] afterwards, so both ends
    look the same to it. *)
Definition loadBooks (boot : Boot) (rows : list Row) (books : list Book)
    : string + list Book :=
  scanRows boot (rowsNext boot rows) books.

(** The routes of [main], in the order of registration. *)
Definition routes (environ : gmap string string) : list Route :=
  HandleFunc [Lit "books"; Var "id"] (authMiddleware environ DeleteBook) "DELETE"
    (HandleFunc [Lit "books"; Var "id"] (authMiddleware environ UpdateBook) "PUT"
      (HandleFunc [Lit "books"] (authMiddleware environ CreateBook) "POST"
        (HandleFunc [Lit "books"; Var "id"] (authMiddleware environ GetBook) "GET"
          (HandleFunc [Lit "books"] (authMiddleware environ GetBooks) "GET" [])))).

(** [func main()] *)
Definition main (environ : gmap string string) (boot : Boot) (tbl : list Row) : Process :=
  match connectDB environ boot with
  | inl msg => LogFatal msg
  | inr (environ, _) =>
      match probeErr boot with
      | Some e => LogFatal ("DB 조회 실패:" ++ e)
      | None =>
          match columnsErr boot with
          | Some e => LogFatal ("컬럼 정보 조회 실패:" ++ e)
          | None =>
              match selectErr boot with
              | Some e => LogFatal ("DB 조회 실패:" ++ e)
              | None =>
                  match loadBooks boot tbl [] with
                  | inl msg => LogFatal msg
                  | inr bs => ListenAndServe ":8000" (routes environ) environ (mkState bs tbl)
                  end
              end
          end
      end
  end.
End Main.

End MainGo.

(** ** A started server *)

(** The address the process listens on. *)
Definition listenAddr (p : Process) : option string :=
  match p with
  | LogFatal _ => None
  | ListenAndServe addr _ _ _ => Some addr
  end.

(** ** Notions used in the statements *)

Local Open Scope list_scope.

(** The writer every handler of [App] starts from after its first line. *)
Definition jsonWriter : ResponseWriter :=
  HeaderSet "Content-Type" "application/json" newResponseWriter.

Section Outcomes.
Context `{TimeFormat}.

(** The book [UpdateBook] re-reads and the state it leaves when nothing
    fails and [row] is the first row with the id. *)
Definition updatedOf (book : Book) (row : Row) : Book :=
  mkBook (rid row) (Title book) (Author book) (Year book) (scanString (rregdate row)).

Definition updateDone (id : string) (book : Book) (row : Row) st : ResponseWriter * State :=
  (Encode (EncBook (updatedOf book row)) jsonWriter,
   mkState
     match rangeFirst id (books st) 0 with
     | Some (i, _) => <[i := updatedOf book row]> (books st)
     | None => books st
     end
     (sqlUpdate id (Title book) (Author book) (Year book) (table st)).1).

(** The state [DeleteBook] leaves when nothing fails and a row has the
    id. *)
Definition deleteDone (id : string) st : ResponseWriter * State :=
  (Encode (messageBody "책이 성공적으로 삭제되었습니다") (WriteHeader StatusOK jsonWriter),
   mkState
     match rangeFirst id (books st) 0 with
     | Some (i, _) => take i (books st) ++ drop (S i) (books st)
     | None => books st
     end
     (sqlDelete id (table st)).1).

(** The contract of a create handler, for every request, database outcome
    and state. *)
Definition createContract (CreateBook : HandlerFunc) : Prop :=
  ∀ (env : Env) (r : Request) (st : State),
    let res := CreateBook env newResponseWriter r st in
    (Body r = None → StatusCode res.1 = StatusBadRequest ∧ res.2 = st) ∧
    (∀ book, Body r = Some book →
       let inserted :=
         table st ++ [mkRow (newId env) (Title book) (Author book) (Year book) (getdate env)] in
       (∀ id regdate,
          CreateBook env newResponseWriter
            (mkRequest (Method r) (URLPath r) (Header r) (Vars r)
               (Some (mkBook id (Title book) (Author book) (Year book) regdate))) st
          = res) ∧
       (is_Some (execErr env) →
          StatusCode res.1 = StatusInternalServerError ∧ res.2 = st) ∧
       (execErr env = None → is_Some (queryErr env) →
          StatusCode res.1 = StatusInternalServerError ∧
          res.2 = mkState (books st) inserted) ∧
       (execErr env = None → queryErr env = None →
          ∃ row, sqlSelectTop1 inserted = Some row ∧
                 StatusCode res.1 = StatusCreated ∧
                 wbody res.1 = [EncBook (scanRow row)] ∧
                 res.2 = mkState (books st ++ [scanRow row]) inserted)).
End Outcomes.

(** The contract of a middleware guarding with [secret]. *)
Definition gateContract (secret : string) (auth : HandlerFunc → HandlerFunc) : Prop :=
  ∀ (next : HandlerFunc) (env : Env) (r : Request) (st : State),
    (Header r !! "X-API-Key" = None ∨ HeaderGet (Header r) "X-API-Key" ≠ secret →
       StatusCode (auth next env newResponseWriter r st).1 = StatusUnauthorized ∧
       (auth next env newResponseWriter r st).2 = st ∧
       ∀ next', auth next' env newResponseWriter r st
                = auth next env newResponseWriter r st) ∧
    (HeaderGet (Header r) "X-API-Key" = secret →
       ∀ w, auth next env w r st = next env w r st).

(** The contract of the routes of a server: a request that reaches a
    handler other than the health check without the right key is answered
    401 and changes nothing. *)
Definition gatedRoutes (secret : string) (router : list Route) : Prop :=
  ∀ (env : Env) (r : Request) (st : State) h vars,
    muxMatch router r = Matched h vars → URLPath r ≠ ["health"] →
    Header r !! "X-API-Key" = None ∨ HeaderGet (Header r) "X-API-Key" ≠ secret →
    StatusCode (ServeHTTP router env newResponseWriter r st).1 = StatusUnauthorized ∧
    (ServeHTTP router env newResponseWriter r st).2 = st.

(** No database call fails while [main] starts. *)
Definition bootClean (boot : Boot) : Prop :=
  openErr boot = None ∧ pingErr boot = None ∧ probeErr boot = None ∧
  columnsErr boot = None ∧ selectErr boot = None ∧ scanErr boot = None.

(** The five variables [loadConfig] requires. *)
Definition requiredSet (environ : gmap string string) : Prop :=
  Getenv environ "DB_SERVER" ≠ "" ∧ Getenv environ "DB_USER" ≠ "" ∧
  Getenv environ "DB_PASSWORD" ≠ "" ∧ Getenv environ "DB_NAME" ≠ "" ∧
  Getenv environ "API_KEY" ≠ "".

(** ** The cache as a mirror of the table *)

Section Mirror.
Context `{TimeFormat}.

(** A cached book stands for a row: same id, title, author and year, and as
    regdate one of the two renderings of the stored date-time (the one of the
    handlers or the one of the start-up loop). *)
Definition mirrorsRow (b : Book) (r : Row) : Prop :=
  ID b = rid r ∧ Title b = rtitle r ∧ Author b = rauthor r ∧ Year b = ryear r ∧
  (Regdate b = scanString (rregdate r) ∨ Regdate b = formatLayout (rregdate r)).

(** The cache stands for the table row by row, in order, and no two rows
    share an id. *)
Definition mirrors (st : State) : Prop :=
  Forall2 mirrorsRow (books st) (table st) ∧ NoDup (map rid (table st)).

End Mirror.

(** The engine gives an unused id and [GETDATE()] is later than every stored
    regdate. *)
Definition freshFor (env : Env) (st : State) : Prop :=
  (newId env ∉ map rid (table st)) ∧
  Forall (λ r, rregdate r < getdate env) (table st).

(** No call made after the statement has run fails. *)
Definition noLateError (env : Env) : Prop :=
  rowsAffectedErr env = None ∧ queryErr env = None.

(** Requests served one after the other by the router of a started process,
    each on a fresh [ResponseWriter], with the outcomes the outside world
    decides for each. *)
Fixpoint serveAll (router : list Route) (reqs : list (Env * Request)) (st : State)
    : list ResponseWriter * State :=
  match reqs with
  | [] => ([], st)
  | (env, r) :: reqs' =>
      let res := ServeHTTP router env newResponseWriter r st in
      let rest := serveAll router reqs' res.2 in
      (res.1 :: rest.1, rest.2)
  end.

(** Every request of the run meets [freshFor] and [noLateError] in the state
    it is served in. *)
Fixpoint admissible (router : list Route) (reqs : list (Env * Request)) (st : State)
    : Prop :=
  match reqs with
  | [] => True
  | (env, r) :: reqs' =>
      freshFor env st ∧ noLateError env ∧
      admissible router reqs' (ServeHTTP router env newResponseWriter r st).2
  end.

(** Two replies to the same request agree: same status, same next state
    and, when [db.Exec] did not fail, the same written values.  (On a failed
    [db.Exec] the error text of [src/main.go] carries the driver's message.) *)
Definition agree (env : Env) (a b : ResponseWriter * State) : Prop :=
  StatusCode a.1 = StatusCode b.1 ∧ a.2 = b.2 ∧
  (execErr env = None → wbody a.1 = wbody b.1).

(** ** Sample data for the concrete runs *)

(** Two renderings that differ, as a layout with a space and an RFC 3339
    rendering do. *)
Definition sampleTime : TimeFormat :=
  {| scanString t := ("scan:" ++ pretty t)%string;
     formatLayout t := ("layout:" ++ pretty t)%string |}.

(** No database call fails; the engine gives [id] to a new row at time
    [now]. *)
Definition envOk (id : string) (now : Z) : Env :=
  mkEnv None None None id now "2024-03-10T02:00:00Z".

(** The re-read fails. *)
Definition envQueryFails : Env :=
  mkEnv None None (Some "i/o timeout") "8" 100 "2024-03-10T02:00:00Z".

Definition withKey (k : string) : gmap string (list string) := {[ "X-API-Key" := [k] ]}.

Definition getBook (id : string) : Request :=
  mkRequest "GET" ["books"; id] (withKey "s3cret") {[ "id" := id ]} None.
Definition listBooks : Request :=
  mkRequest "GET" ["books"] (withKey "s3cret") ∅ None.
Definition postBook (body : Book) : Request :=
  mkRequest "POST" ["books"] (withKey "s3cret") ∅ (Some body).
Definition putBook (id : string) (body : Book) : Request :=
  mkRequest "PUT" ["books"; id] (withKey "s3cret") {[ "id" := id ]} (Some body).
Definition deleteBook (id : string) : Request :=
  mkRequest "DELETE" ["books"; id] (withKey "s3cret") {[ "id" := id ]} None.
Definition getHealth : Request :=
  mkRequest "GET" ["health"] ∅ ∅ None.

Definition rowDune : Row := mkRow "7" "Dune" "Herbert" 1965 200.
Definition dune : Book := mkBook "" "Dune" "Herbert" 1965 "".
Definition duneRev : Book := mkBook "" "Dune (rev)" "Herbert" 1965 "".
Definition emma : Book := mkBook "" "Emma" "Austen" 1815 "".

(** The database variables without [API_KEY], and with it. *)
Definition environNoKey : gmap string string :=
  {[ "DB_SERVER" := "db.local"; "DB_USER" := "sa"; "DB_PASSWORD" := "pw";
     "DB_PORT" := "1433"; "DB_NAME" := "bz" ]}.
Definition environFull : gmap string string := <[ "API_KEY" := "s3cret" ]> environNoKey.

(** No [.env] file, and an empty one; no database call fails. *)
Definition bootPlain : Boot := mkBoot false None None None None None None None None.
Definition bootDotenv : Boot := mkBoot true (Some ∅) None None None None None None None.

(** Start-up outcomes in which fetching the rows fails before the first
    row. *)
Definition bootFetchErr : Boot :=
  mkBoot false None None None None None None (Some 0%nat) None.

(** [RowsAffected] fails. *)
Definition envRowsFail : Env :=
  mkEnv None (Some "driver: bad connection") None "8" 100 "2024-03-10T02:00:00Z".

(** [db.Exec] fails. *)
Definition envExecFails : Env :=
  mkEnv (Some "driver: bad connection") None None "8" 100 "2024-03-10T02:00:00Z".

(** The state [main] starts from on a table holding Dune, and a run of three
    requests: create Emma, revise Dune, delete Emma. *)
Definition startState : State := mkState [@loadRow sampleTime rowDune] [rowDune].
Definition sampleRun : list (Env * Request) :=
  [(envOk "8" 300, postBook emma);
   (envOk "9" 400, putBook "7" duneRev);
   (envOk "10" 500, deleteBook "8")].

(** * Properties *)

(** ** The range loop *)

Lemma rangeFirst_app (id : string) (pre post : list Book) (b : Book) (i : nat) :
  Forall (λ c, ID c ≠ id) pre → ID b = id →
  rangeFirst id (pre ++ b :: post) i = Some ((i + length pre)%nat, b).
Proof.
  intros Hpre Hb. revert i.
  induction Hpre as [|c pre Hc Hpre IH]; intros i; simpl.
  - rewrite decide_True by done. by rewrite Nat.add_0_r.
  - rewrite decide_False by done. rewrite IH. do 2 f_equal. lia.
Qed.

Lemma rangeFirst_None (id : string) (bs : list Book) (i : nat) :
  rangeFirst id bs i = None ↔ Forall (λ c, ID c ≠ id) bs.
Proof.
  revert i. induction bs as [|c bs IH]; intros i; simpl.
  - split; [constructor | done].
  - case_decide as Hc.
    + split; [done | intros Hall; by inversion Hall].
    + rewrite IH. split; [by constructor | intros Hall; by inversion Hall].
Qed.

Lemma rangeFirst_Some (id : string) (bs : list Book) (i j : nat) (b : Book) :
  rangeFirst id bs i = Some (j, b) →
  ∃ pre post, bs = pre ++ b :: post ∧ Forall (λ c, ID c ≠ id) pre ∧
              ID b = id ∧ j = (i + length pre)%nat.
Proof.
  revert i. induction bs as [|c bs IH]; intros i; simpl; [done|].
  case_decide as Hc.
  - intros [= <- <-]. exists [], bs. simpl. repeat split; [constructor | done | lia].
  - intros Hr. destruct (IH _ Hr) as (pre & post & -> & Hpre & Hb & ->).
    exists (c :: pre), post. simpl. repeat split; [by constructor | done | lia].
Qed.

(** [books[i] = updatedBook] and [append(books[:i], books[i+1:]...)] at the
    index the loop stops at. *)
Lemma insert_at_split (pre post : list Book) (b u : Book) :
  <[length pre := u]> (pre ++ b :: post) = pre ++ u :: post.
Proof.
  rewrite insert_app_r_alt by lia. by rewrite Nat.sub_diag.
Qed.

Lemma remove_at_split (pre post : list Book) (b : Book) :
  take (length pre) (pre ++ b :: post) ++ drop (S (length pre)) (pre ++ b :: post)
  = pre ++ post.
Proof.
  rewrite take_app_length. f_equal.
  change (b :: post) with ([b] ++ post). rewrite app_assoc.
  rewrite drop_app_length'; [done|]. rewrite length_app. simpl. lia.
Qed.

(** ** Status of a reply written on a fresh [ResponseWriter] *)

Lemma StatusCode_WriteHeader (c : Z) (v : Output) (w : ResponseWriter) :
  wcode w = None → StatusCode (Encode v (WriteHeader c w)) = c.
Proof. intros Hw. unfold StatusCode, Encode, WriteHeader. by rewrite Hw. Qed.

Lemma StatusCode_Encode (v : Output) (w : ResponseWriter) :
  wcode w = None → StatusCode (Encode v w) = StatusOK.
Proof. intros Hw. unfold StatusCode, Encode, WriteHeader. by rewrite Hw. Qed.

Lemma wbody_Encode_WriteHeader (c : Z) (v : Output) (w : ResponseWriter) :
  wbody (Encode v (WriteHeader c w)) = wbody w ++ [v].
Proof. by destruct w as [h [c'|] b]. Qed.

Lemma wbody_Encode (v : Output) (w : ResponseWriter) :
  wbody (Encode v w) = wbody w ++ [v].
Proof. by destruct w as [h [c'|] b]. Qed.

Create Rewrite HintDb reply.

#[local] Hint Rewrite StatusCode_WriteHeader StatusCode_Encode
  wbody_Encode_WriteHeader wbody_Encode using reflexivity : reply.

(** ** The statements on the table *)

Lemma filter_id_nil (id : string) (tbl : list Row) :
  filter (λ r, rid r = id) tbl = [] ↔ Forall (λ r, rid r ≠ id) tbl.
Proof.
  induction tbl as [|r tbl IH]; simpl.
  - split; [constructor | done].
  - rewrite filter_cons. case_decide as Hr.
    + split; [done | intros Hall; by inversion Hall].
    + rewrite IH. split; [by constructor | intros Hall; by inversion Hall].
Qed.

(** The count of affected rows is 0 exactly when no row has the id. *)
Lemma affected_zero (id : string) (tbl : list Row) :
  Z.of_nat (length (filter (λ r, rid r = id) tbl)) = 0 ↔ Forall (λ r, rid r ≠ id) tbl.
Proof.
  rewrite <- filter_id_nil. destruct (filter _ tbl); simpl; [done|].
  split; [lia | done].
Qed.

Lemma sqlSelectById_None (id : string) (tbl : list Row) :
  sqlSelectById id tbl = None ↔ Forall (λ r, rid r ≠ id) tbl.
Proof.
  unfold sqlSelectById. rewrite <- filter_id_nil. by destruct (filter _ tbl).
Qed.

Lemma sqlSelectById_Some (id : string) (tbl : list Row) (row : Row) :
  sqlSelectById id tbl = Some row → row ∈ tbl ∧ rid row = id.
Proof.
  unfold sqlSelectById. intros Hh.
  assert (row ∈ filter (λ r, rid r = id) tbl) as Hin.
  { destruct (filter _ tbl) as [|x l]; simplify_eq/=. by left. }
  by apply list_elem_of_filter in Hin as [? ?].
Qed.

(** No row with the id: the [UPDATE] and the [DELETE] leave the table as it
    is. *)
Lemma sqlUpdate_absent (id title author : string) (year : Z) (tbl : list Row) :
  Forall (λ r, rid r ≠ id) tbl → (sqlUpdate id title author year tbl).1 = tbl.
Proof.
  intros Hall. simpl. induction Hall as [|r tbl Hr Hall IH]; simpl; [done|].
  rewrite decide_False by done. by rewrite IH.
Qed.

Lemma sqlDelete_absent (id : string) (tbl : list Row) :
  Forall (λ r, rid r ≠ id) tbl → (sqlDelete id tbl).1 = tbl.
Proof.
  intros Hall. simpl. induction Hall as [|r tbl Hr Hall IH]; [done|].
  rewrite filter_cons. rewrite decide_True by done. by rewrite IH.
Qed.

(** The row the re-read of [UpdateBook] finds is the first row with the id,
    carrying the new values. *)
Lemma sqlSelectById_sqlUpdate (id title author : string) (year : Z) (tbl : list Row) :
  sqlSelectById id (sqlUpdate id title author year tbl).1
  = (λ r, mkRow (rid r) title author year (rregdate r)) <$> sqlSelectById id tbl.
Proof.
  unfold sqlSelectById. simpl. induction tbl as [|r tbl IH]; simpl; [done|].
  rewrite !filter_cons. destruct (decide (rid r = id)) as [Hr|Hr]; simpl.
  - by rewrite decide_True.
  - by rewrite decide_False.
Qed.

Lemma sqlSelectById_sqlDelete (id : string) (tbl : list Row) :
  sqlSelectById id (sqlDelete id tbl).1 = None.
Proof.
  apply sqlSelectById_None. simpl. apply Forall_forall.
  intros r Hr. by apply list_elem_of_filter in Hr as [? ?].
Qed.

Lemma sqlSelectTop1_is_Some (tbl : list Row) :
  tbl ≠ [] → is_Some (sqlSelectTop1 tbl).
Proof.
  destruct tbl as [|r tbl]; [done|]. intros _. simpl.
  destruct (sqlSelectTop1 tbl); [case_decide|]; eauto.
Qed.

(** [SELECT TOP 1 ... ORDER BY regdate DESC] returns a row of the table, and
    no row is later. *)
Lemma sqlSelectTop1_max (tbl : list Row) (row : Row) :
  sqlSelectTop1 tbl = Some row →
  row ∈ tbl ∧ Forall (λ r, rregdate r ≤ rregdate row) tbl.
Proof.
  revert row. induction tbl as [|r tbl IH]; intros row; simpl; [done|].
  destruct (sqlSelectTop1 tbl) as [r'|] eqn:Htop.
  - destruct (IH r' eq_refl) as [Hin Hmax]. case_decide as Hlt; intros [= <-].
    + split; [by right|]. constructor; [lia | done].
    + split; [by left|]. constructor; [lia|].
      eapply Forall_impl; [exact Hmax|]. simpl. intros; lia.
  - intros [= <-]. split; [by left|].
    destruct tbl as [|r0 tbl]; [by repeat constructor|].
    destruct (sqlSelectTop1_is_Some (r0 :: tbl)) as [x Hx]; [done|]. congruence.
Qed.

(** ** Outcomes of the handlers of [App] *)

Section AppHandlers.
Context `{TimeFormat}.
Implicit Types (env : Env) (r : Request) (st : State).

(** [CreateBook] answers 201 only at the end of its body. *)
Lemma CreateBook_created env r st :
  StatusCode (App.CreateBook env newResponseWriter r st).1 = StatusCreated →
  ∃ book row,
    Body r = Some book ∧ execErr env = None ∧ queryErr env = None ∧
    sqlSelectTop1 (sqlInsert env (Title book) (Author book) (Year book) (table st))
      = Some row ∧
    App.CreateBook env newResponseWriter r st
      = (Encode (EncBook (scanRow row)) (WriteHeader StatusCreated jsonWriter),
         mkState (books st ++ [scanRow row])
                 (sqlInsert env (Title book) (Author book) (Year book) (table st))).
Proof.
  unfold App.CreateBook, dbExec, dbQueryRow. fold jsonWriter.
  destruct (Body r) as [book|]; [|by autorewrite with reply].
  destruct (execErr env); [by autorewrite with reply|].
  destruct (queryErr env); [by autorewrite with reply|].
  destruct (sqlSelectTop1 _) as [row|] eqn:Htop; [|by autorewrite with reply].
  intros _. by exists book, row.
Qed.

Lemma UpdateBook_done env r st book row :
  Body r = Some book → execErr env = None → rowsAffectedErr env = None →
  queryErr env = None →
  sqlSelectById (mapIndex (Vars r) "id") (table st) = Some row →
  App.UpdateBook env newResponseWriter r st
    = updateDone (mapIndex (Vars r) "id") book row st.
Proof.
  intros Hbody Hexec Hrows Hquery Hrow.
  unfold App.UpdateBook, dbExec, RowsAffected, dbQueryRow, updateDone.
  fold jsonWriter. rewrite Hbody, Hexec. cbn [sqlUpdate]. rewrite Hrows.
  rewrite decide_False.
  2:{ rewrite affected_zero, <- sqlSelectById_None. by rewrite Hrow. }
  rewrite Hquery.
  pose proof (sqlSelectById_sqlUpdate (mapIndex (Vars r) "id") (Title book)
                (Author book) (Year book) (table st)) as Hsel.
  cbn [sqlUpdate fst] in Hsel. rewrite Hsel, Hrow. reflexivity.
Qed.

(** [UpdateBook] answers 200 only at the end of its body. *)
Lemma UpdateBook_ok env r st :
  StatusCode (App.UpdateBook env newResponseWriter r st).1 = StatusOK →
  ∃ book row,
    Body r = Some book ∧ execErr env = None ∧ rowsAffectedErr env = None ∧
    queryErr env = None ∧
    sqlSelectById (mapIndex (Vars r) "id") (table st) = Some row.
Proof.
  unfold App.UpdateBook, dbExec, RowsAffected, dbQueryRow. fold jsonWriter.
  destruct (Body r) as [book|]; [|by autorewrite with reply].
  destruct (execErr env); [by autorewrite with reply|]. cbn [sqlUpdate].
  destruct (rowsAffectedErr env); [by autorewrite with reply|].
  case_decide as Hz; [by autorewrite with reply|].
  destruct (queryErr env); [by autorewrite with reply|].
  intros _. rewrite affected_zero, <- sqlSelectById_None in Hz.
  destruct (sqlSelectById _ (table st)) as [row|]; [|done].
  by exists book, row.
Qed.

Lemma DeleteBook_done env r st :
  execErr env = None → rowsAffectedErr env = None →
  ¬ Forall (λ row, rid row ≠ mapIndex (Vars r) "id") (table st) →
  App.DeleteBook env newResponseWriter r st = deleteDone (mapIndex (Vars r) "id") st.
Proof.
  intros Hexec Hrows Hrow.
  unfold App.DeleteBook, dbExec, RowsAffected, deleteDone. fold jsonWriter.
  rewrite Hexec. cbn [sqlDelete]. rewrite Hrows.
  rewrite decide_False; [done|]. by rewrite affected_zero.
Qed.

(** [DeleteBook] answers 200 only at the end of its body. *)
Lemma DeleteBook_ok env r st :
  StatusCode (App.DeleteBook env newResponseWriter r st).1 = StatusOK →
  execErr env = None ∧ rowsAffectedErr env = None ∧
  ¬ Forall (λ row, rid row ≠ mapIndex (Vars r) "id") (table st).
Proof.
  unfold App.DeleteBook, dbExec, RowsAffected. fold jsonWriter.
  destruct (execErr env); [by autorewrite with reply|]. cbn [sqlDelete].
  destruct (rowsAffectedErr env); [by autorewrite with reply|].
  case_decide as Hz; [by autorewrite with reply|].
  intros _. by rewrite affected_zero in Hz.
Qed.

Lemma GetBook_found env r st (i : nat) (b : Book) :
  rangeFirst (mapIndex (Vars r) "id") (books st) 0 = Some (i, b) →
  App.GetBook env newResponseWriter r st = (Encode (EncBook b) jsonWriter, st).
Proof. intros Hr. unfold App.GetBook. fold jsonWriter. by rewrite Hr. Qed.

Lemma GetBook_missing env r st :
  rangeFirst (mapIndex (Vars r) "id") (books st) 0 = None →
  StatusCode (App.GetBook env newResponseWriter r st).1 = StatusNotFound ∧
  (App.GetBook env newResponseWriter r st).2 = st.
Proof.
  intros Hr. unfold App.GetBook. fold jsonWriter. rewrite Hr.
  by autorewrite with reply.
Qed.
End AppHandlers.

(** ** The cache under repeated ids *)

Section FirstMatch.
Context `{TimeFormat}.

(** C10.  In every cache state, also one holding several entries with the
    requested id: get-by-id answers with the first entry carrying the id.  An
    update answered 200 replaces that first entry only, by the book it
    answers with: the path id, the title, author and year of the body and
    the regdate scanned from the stored row; the rows with the id take the
    body's fields.  A delete answered 200 removes that first entry only and
    the rows with the id.  Every other entry stays where it was, and a cache
    without the id is left as it is. *)
Theorem first_match_only (env : Env) (r : Request) (bs : list Book) (tbl : list Row) :
  let id := mapIndex (Vars r) "id" in
  let st := mkState bs tbl in
  (∀ pre b post,
     bs = pre ++ b :: post → Forall (λ c, ID c ≠ id) pre → ID b = id →
     App.GetBook env newResponseWriter r st = (Encode (EncBook b) jsonWriter, st) ∧
     (StatusCode (App.UpdateBook env newResponseWriter r st).1 = StatusOK →
      ∃ book row,
        Body r = Some book ∧ sqlSelectById id tbl = Some row ∧
        let u := mkBook id (Title book) (Author book) (Year book)
                   (scanString (rregdate row)) in
        wbody (App.UpdateBook env newResponseWriter r st).1 = [EncBook u] ∧
        books (App.UpdateBook env newResponseWriter r st).2 = pre ++ u :: post ∧
        table (App.UpdateBook env newResponseWriter r st).2
          = (sqlUpdate id (Title book) (Author book) (Year book) tbl).1) ∧
     (StatusCode (App.DeleteBook env newResponseWriter r st).1 = StatusOK →
      books (App.DeleteBook env newResponseWriter r st).2 = pre ++ post ∧
      table (App.DeleteBook env newResponseWriter r st).2 = (sqlDelete id tbl).1)) ∧
  (Forall (λ c, ID c ≠ id) bs →
     StatusCode (App.GetBook env newResponseWriter r st).1 = StatusNotFound ∧
     books (App.UpdateBook env newResponseWriter r st).2 = bs ∧
     books (App.DeleteBook env newResponseWriter r st).2 = bs).
Proof.
  intros id st. subst id st. split.
  - intros pre b post -> Hpre Hb.
    pose proof (rangeFirst_app _ pre post b 0 Hpre Hb) as Hfirst.
    simpl in Hfirst. split; [|split].
    + by eapply GetBook_found.
    + intros Hok. destruct (UpdateBook_ok _ _ _ Hok)
        as (book & row & Hbody & Hexec & Hrows & Hquery & Hrow).
      rewrite (UpdateBook_done _ _ _ _ _ Hbody Hexec Hrows Hquery Hrow).
      exists book, row. cbn [table] in Hrow. do 2 (split; [done|]).
      destruct (sqlSelectById_Some _ _ _ Hrow) as [_ Hid].
      unfold updateDone, updatedOf. cbn [fst snd books table]. rewrite Hid, Hfirst.
      split; [done|]. split; [apply insert_at_split | done].
    + intros Hok. destruct (DeleteBook_ok _ _ _ Hok) as (Hexec & Hrows & Hrow).
      rewrite (DeleteBook_done _ _ _ Hexec Hrows Hrow).
      unfold deleteDone. cbn [snd books table]. rewrite Hfirst.
      split; [apply remove_at_split | done].
  - intros Hall. apply (rangeFirst_None _ bs 0) in Hall. split; [|split].
    + by apply GetBook_missing.
    + unfold App.UpdateBook, dbExec, RowsAffected, dbQueryRow.
      cbn [books]. rewrite Hall. by repeat case_match.
    + unfold App.DeleteBook, dbExec, RowsAffected.
      cbn [books]. rewrite Hall. by repeat case_match.
Qed.
End FirstMatch.

(** ** Requests for an id the table does not hold *)

Section AbsentId.
Context `{TimeFormat}.

(** C3.  An update (with a body that decodes) or a delete whose statement
    runs and affects no row, the path id matching no row of the table, is
    answered 404 and leaves the state as it was: the cache keeps its length
    and its entries, and the table its rows. *)
Theorem absent_id_not_found (env : Env) (r : Request) (st : State) :
  execErr env = None → rowsAffectedErr env = None →
  Forall (λ row, rid row ≠ mapIndex (Vars r) "id") (table st) →
  (∀ book, Body r = Some book →
     StatusCode (App.UpdateBook env newResponseWriter r st).1 = StatusNotFound ∧
     (App.UpdateBook env newResponseWriter r st).2 = st ∧
     length (books (App.UpdateBook env newResponseWriter r st).2) = length (books st)) ∧
  StatusCode (App.DeleteBook env newResponseWriter r st).1 = StatusNotFound ∧
  (App.DeleteBook env newResponseWriter r st).2 = st ∧
  length (books (App.DeleteBook env newResponseWriter r st).2) = length (books st).
Proof.
  intros Hexec Hrows Habs. split.
  - intros book Hbody.
    assert (App.UpdateBook env newResponseWriter r st
            = (Encode (errorBody "수정할 책을 찾을 수 없습니다")
                      (WriteHeader StatusNotFound jsonWriter), st)) as ->.
    { unfold App.UpdateBook, dbExec, RowsAffected. fold jsonWriter.
      rewrite Hbody, Hexec. cbn [sqlUpdate]. rewrite Hrows.
      rewrite decide_True by by apply affected_zero.
      pose proof (sqlUpdate_absent _ (Title book) (Author book) (Year book) _ Habs) as Hsame.
      cbn [sqlUpdate fst] in Hsame. rewrite Hsame. by destruct st. }
    by autorewrite with reply.
  - assert (App.DeleteBook env newResponseWriter r st
            = (Encode (errorBody "삭제할 책을 찾을 수 없습니다")
                      (WriteHeader StatusNotFound jsonWriter), st)) as ->.
    { unfold App.DeleteBook, dbExec, RowsAffected. fold jsonWriter.
      rewrite Hexec. cbn [sqlDelete]. rewrite Hrows.
      rewrite decide_True by by apply affected_zero.
      pose proof (sqlDelete_absent _ _ Habs) as Hsame.
      cbn [sqlDelete fst] in Hsame. rewrite Hsame. by destruct st. }
    by autorewrite with reply.
Qed.
End AbsentId.

(** ** Create *)

Section Create.
Context `{TimeFormat}.

Lemma inserted_top1 (env : Env) (title author : string) (year : Z) (tbl : list Row) :
  is_Some (sqlSelectTop1 (sqlInsert env title author year tbl)).
Proof. apply sqlSelectTop1_is_Some. unfold sqlInsert. by destruct tbl. Qed.

(** C6.  Create, in both files: a body that does not decode gives 400 and
    leaves table and cache alone; an id or a regdate in the body changes
    nothing, the inserted row carrying only the title, author and year of
    the body; a failed insert gives 500; a failed re-read gives 500; when
    nothing fails the re-read row is appended to the cache and returned with
    201. *)
Theorem CreateBook_contract :
  createContract App.CreateBook ∧ createContract MainGo.CreateBook.
Proof.
  split; intros env r st res; subst res.
  - unfold App.CreateBook, dbExec, dbQueryRow. fold jsonWriter. split.
    + intros ->. cbn [fst snd]. by autorewrite with reply.
    + intros book ->. cbn [Body Title Author Year].
      destruct (inserted_top1 env (Title book) (Author book) (Year book) (table st))
        as [row Hrow].
      unfold sqlInsert in *.
      split; [done|]. split; [|split].
      * intros [e ->]. cbn [fst snd]. by autorewrite with reply.
      * intros -> [e ->]. cbn [fst snd]. by autorewrite with reply.
      * intros -> ->. exists row. rewrite Hrow. cbn [fst snd].
        by autorewrite with reply.
  - unfold MainGo.CreateBook, dbExec, dbQueryRow. split.
    + intros ->. cbn [fst snd]. by autorewrite with reply.
    + intros book ->. cbn [Body Title Author Year].
      destruct (inserted_top1 env (Title book) (Author book) (Year book) (table st))
        as [row Hrow].
      unfold sqlInsert in *.
      split; [done|]. split; [|split].
      * intros [e ->]. cbn [fst snd]. by autorewrite with reply.
      * intros -> [e ->]. cbn [fst snd]. by autorewrite with reply.
      * intros -> ->. exists row. rewrite Hrow. cbn [fst snd].
        by autorewrite with reply.
Qed.
End Create.

(** ** The key check *)

(** A request reaches a route only on a clean path. *)
Lemma muxMatch_Matched (router : list Route) (r : Request)
    (h : HandlerFunc) (vars : gmap string string) :
  muxMatch router r = Matched h vars →
  cleanPath (URLPath r) = URLPath r ∧ routeMatch router r = Matched h vars.
Proof. unfold muxMatch. by case_decide. Qed.

Lemma muxMatch_clean (router : list Route) (r : Request) :
  cleanPath (URLPath r) = URLPath r → muxMatch router r = routeMatch router r.
Proof. intros Hclean. unfold muxMatch. by rewrite decide_True. Qed.

Lemma muxMatch_unclean (router : list Route) (r : Request) :
  cleanPath (URLPath r) ≠ URLPath r →
  muxMatch router r = Redirect (cleanPath (URLPath r)).
Proof. intros Hclean. unfold muxMatch. by rewrite decide_False. Qed.

Section Gate.
Context `{TimeFormat}.

(** Every route of [App.main] other than [/health] hands the request to a
    handler wrapped by the middleware. *)
Lemma App_routes_wrapped (auth : HandlerFunc → HandlerFunc) (r : Request)
    (h : HandlerFunc) (vars : gmap string string) :
  muxMatch (App.routes auth) r = Matched h vars →
  (h = App.HealthCheck ∧ URLPath r = ["health"] ∧ Method r = "GET") ∨
  (∃ next, h = auth next).
Proof.
  intros [_ Hm]%muxMatch_Matched. revert Hm.
  unfold App.routes, HandleFunc. cbn [app routeMatch rpath rmethod rhandler].
  intros Hm.
  repeat match type of Hm with
  | context [matchPath ?t ?p ?v] =>
      let Hp := fresh "Hp" in destruct (matchPath t p v) eqn:Hp
  | context [decide (?a = ?b)] => destruct (decide (a = b))
  end; simplify_eq; try (right; eexists; reflexivity).
  all: left; split; [done|]; split; [|done].
  all: destruct (URLPath r) as [|p [|q path]]; simpl in *; try done.
  all: by repeat case_decide; simplify_eq.
Qed.

(** Every route of [MainGo.main] is wrapped. *)
Lemma MainGo_routes_wrapped (environ : gmap string string) (r : Request)
    (h : HandlerFunc) (vars : gmap string string) :
  muxMatch (MainGo.routes environ) r = Matched h vars →
  ∃ next, h = MainGo.authMiddleware environ next.
Proof.
  intros [_ Hm]%muxMatch_Matched. revert Hm.
  unfold MainGo.routes, HandleFunc. cbn [app routeMatch rpath rmethod rhandler].
  intros Hm.
  repeat match type of Hm with
  | context [matchPath ?t ?p ?v] =>
      let Hp := fresh "Hp" in destruct (matchPath t p v) eqn:Hp
  | context [decide (?a = ?b)] => destruct (decide (a = b))
  end; simplify_eq; eexists; reflexivity.
Qed.

(** A request without the header reads as the empty key. *)
Lemma HeaderGet_absent (h : gmap string (list string)) (key : string) :
  h !! key = None → HeaderGet h key = "".
Proof. intros Hk. unfold HeaderGet. by rewrite Hk. Qed.

Lemma App_gate (secret : string) :
  secret ≠ "" → gateContract secret (App.authMiddleware secret).
Proof.
  intros Hsecret next env r st. unfold App.authMiddleware. split.
  - intros Hbad. case_decide as Hempty.
    + cbn [fst snd]. by autorewrite with reply.
    + case_decide as Hne.
      * cbn [fst snd]. by autorewrite with reply.
      * exfalso. destruct Hbad as [Habs|Hbad]; [|done].
        by apply HeaderGet_absent in Habs.
  - intros Hkey w. rewrite Hkey. rewrite decide_False by done.
    by rewrite decide_False by (intros Hne; by apply Hne).
Qed.

Lemma MainGo_gate (environ : gmap string string) :
  Getenv environ "API_KEY" ≠ "" →
  gateContract (Getenv environ "API_KEY") (MainGo.authMiddleware environ).
Proof.
  intros Hsecret next env r st. unfold MainGo.authMiddleware. split.
  - intros Hbad. case_decide as Hempty.
    + cbn [fst snd]. by autorewrite with reply.
    + case_decide as Hne.
      * cbn [fst snd]. by autorewrite with reply.
      * exfalso. destruct Hbad as [Habs|Hbad]; [|done].
        by apply HeaderGet_absent in Habs.
  - intros Hkey w. rewrite Hkey. rewrite decide_False by done.
    by rewrite decide_False by (intros Hne; by apply Hne).
Qed.

(** [loadConfig] never returns an empty key. *)
Lemma loadConfig_key (environ : gmap string string) (boot : Boot) (config : App.Config) :
  App.loadConfig environ boot = inr config → App.APIKey config ≠ "".
Proof.
  unfold App.loadConfig. case_decide as Hreq; [done|].
  intros [= <-] Hk. apply Hreq. cbn [App.APIKey] in Hk. rewrite Hk.
  by repeat right.
Qed.

(** C2.  In both files: when the [X-API-Key] header is absent or differs
    from the configured secret the answer is 401, the wrapped handler plays
    no part in it, and cache and table stay as they were; when the header
    equals the secret the request goes to the wrapped handler as it came.
    Every route but the health check is wrapped this way.  The secret is the
    key [loadConfig] returned, or, in [src/main.go], a non-empty
    [API_KEY]. *)
Theorem authMiddleware_gate :
  (∀ environ boot config,
     App.loadConfig environ boot = inr config →
     gateContract (App.APIKey config) (App.authMiddleware (App.APIKey config)) ∧
     gatedRoutes (App.APIKey config) (App.routes (App.authMiddleware (App.APIKey config)))) ∧
  (∀ environ,
     Getenv environ "API_KEY" ≠ "" →
     gateContract (Getenv environ "API_KEY") (MainGo.authMiddleware environ) ∧
     gatedRoutes (Getenv environ "API_KEY") (MainGo.routes environ)).
Proof.
  split.
  - intros environ boot config Hcfg.
    pose proof (App_gate _ (loadConfig_key _ _ _ Hcfg)) as Hgate.
    split; [done|]. intros env r st h vars Hm Hpath Hbad.
    unfold ServeHTTP. rewrite Hm.
    destruct (App_routes_wrapped _ _ _ _ Hm) as [(_ & Hh & _)|[next ->]]; [done|].
    destruct (Hgate next env
      (mkRequest (Method r) (URLPath r) (Header r) vars (Body r)) st) as [H401 _].
    destruct (H401 Hbad) as (? & ? & _). done.
  - intros environ Hkey.
    pose proof (MainGo_gate _ Hkey) as Hgate.
    split; [done|]. intros env r st h vars Hm Hpath Hbad.
    unfold ServeHTTP. rewrite Hm.
    destruct (MainGo_routes_wrapped _ _ _ _ Hm) as [next ->].
    destruct (Hgate next env
      (mkRequest (Method r) (URLPath r) (Header r) vars (Body r)) st) as [H401 _].
    destruct (H401 Hbad) as (? & ? & _). done.
Qed.
End Gate.

(** ** Create, then get *)

Lemma rangeFirst_app_l (id : string) (bs bs' : list Book) (i : nat) (x : nat * Book) :
  rangeFirst id bs i = Some x → rangeFirst id (bs ++ bs') i = Some x.
Proof.
  revert i. induction bs as [|c bs IH]; intros i; simpl; [done|].
  case_decide; [done|]. apply IH.
Qed.

Section CreateGet.
Context `{TimeFormat}.

(** What [CreateBook] does in general.  When a create is answered 201, the
    returned book is the scan of a row of the table that no row is later than; it is appended
    as the last entry of the cache; its id is non-empty when the ids held by
    the table and the id given to the new row are; and a get-by-id for its
    id that follows at once is answered 200 with that same book, provided no
    entry that was already cached carries the id with other contents. *)
Theorem create_then_get (env env' : Env) (r r' : Request) (st : State) :
  StatusCode (App.CreateBook env newResponseWriter r st).1 = StatusCreated →
  ∃ row,
    row ∈ table (App.CreateBook env newResponseWriter r st).2 ∧
    Forall (λ r0, rregdate r0 ≤ rregdate row)
           (table (App.CreateBook env newResponseWriter r st).2) ∧
    wbody (App.CreateBook env newResponseWriter r st).1 = [EncBook (scanRow row)] ∧
    books (App.CreateBook env newResponseWriter r st).2 = books st ++ [scanRow row] ∧
    (Forall (λ r0, rid r0 ≠ "") (table st) → newId env ≠ "" →
       ID (scanRow row) ≠ "") ∧
    (mapIndex (Vars r') "id" = ID (scanRow row) →
     (∀ c, c ∈ books st → ID c = ID (scanRow row) → c = scanRow row) →
     App.GetBook env' newResponseWriter r' (App.CreateBook env newResponseWriter r st).2
       = (Encode (EncBook (scanRow row)) jsonWriter,
          (App.CreateBook env newResponseWriter r st).2) ∧
     StatusCode
       (App.GetBook env' newResponseWriter r'
          (App.CreateBook env newResponseWriter r st).2).1 = StatusOK).
Proof.
  intros Hcreated.
  destruct (CreateBook_created _ _ _ Hcreated)
    as (book & row & Hbody & Hexec & Hquery & Htop & ->).
  destruct (sqlSelectTop1_max _ _ Htop) as [Hin Hmax].
  exists row. cbn [fst snd books table].
  split; [done|]. split; [done|].
  split; [by autorewrite with reply|]. split; [done|]. split.
  - intros Hids Hnew. cbn [scanRow ID].
    unfold sqlInsert in Hin. apply elem_of_app in Hin as [Hin|Hin].
    + by apply (proj1 (Forall_forall _ _) Hids).
    + apply list_elem_of_singleton in Hin as ->. done.
  - intros Hid Hsame.
    assert (∃ i, rangeFirst (mapIndex (Vars r') "id") (books st ++ [scanRow row]) 0
                 = Some (i, scanRow row)) as [i Hfirst].
    { rewrite Hid.
      destruct (rangeFirst (ID (scanRow row)) (books st) 0) as [[i c]|] eqn:Hr.
      - destruct (rangeFirst_Some _ _ _ _ _ Hr) as (pre & post & Hbs & _ & Hc & _).
        assert (c = scanRow row) as ->.
        { apply Hsame; [|done]. rewrite Hbs. apply elem_of_app. right. by left. }
        exists i. by apply rangeFirst_app_l.
      - apply rangeFirst_None in Hr. eexists.
        by apply rangeFirst_app. }
    split.
    + by eapply GetBook_found.
    + erewrite GetBook_found by done. cbn [fst]. by autorewrite with reply.
Qed.
End CreateGet.

(** ** Update of a stored id *)

Section Update.
Context `{TimeFormat}.

(** The [UPDATE] keeps the id and the regdate of every row. *)
Lemma sqlUpdate_keeps (id title author : string) (year : Z) (tbl : list Row) :
  map rid (sqlUpdate id title author year tbl).1 = map rid tbl ∧
  map rregdate (sqlUpdate id title author year tbl).1 = map rregdate tbl.
Proof.
  simpl. rewrite !map_map. split; apply map_ext; intros r; by case_decide.
Qed.

Lemma sqlUpdate_sets (id title author : string) (year : Z) (tbl : list Row) (r : Row) :
  r ∈ (sqlUpdate id title author year tbl).1 → rid r = id →
  rtitle r = title ∧ rauthor r = author ∧ ryear r = year.
Proof.
  simpl. intros Hin Hid. apply list_elem_of_fmap in Hin as (r0 & -> & _).
  by case_decide.
Qed.

(** What [UpdateBook] does in general.  An update with a body that
    decodes, for an id the table holds, is answered 200 exactly when no database call fails, and then:
    every stored row with the id has the title, author and year of the body,
    and every row keeps its id and its regdate; if the cache holds an entry
    with the id, the first such entry is replaced by the re-read row, which
    has the title, author and year of the body, the same id, and as
    registration timestamp the scan of the stored regdate, the value the entry
    had before whenever that value was such a scan. *)
Theorem UpdateBook_existing (env : Env) (r : Request) (st : State) (book : Book) (row : Row) :
  Body r = Some book →
  sqlSelectById (mapIndex (Vars r) "id") (table st) = Some row →
  (execErr env = None ∧ rowsAffectedErr env = None ∧ queryErr env = None ↔
   StatusCode (App.UpdateBook env newResponseWriter r st).1 = StatusOK) ∧
  (StatusCode (App.UpdateBook env newResponseWriter r st).1 = StatusOK →
   (∀ r1, r1 ∈ table (App.UpdateBook env newResponseWriter r st).2 →
          rid r1 = mapIndex (Vars r) "id" →
          rtitle r1 = Title book ∧ rauthor r1 = Author book ∧ ryear r1 = Year book) ∧
   map rid (table (App.UpdateBook env newResponseWriter r st).2) = map rid (table st) ∧
   map rregdate (table (App.UpdateBook env newResponseWriter r st).2)
     = map rregdate (table st) ∧
   (∀ pre c post,
      books st = pre ++ c :: post →
      Forall (λ c0, ID c0 ≠ mapIndex (Vars r) "id") pre →
      ID c = mapIndex (Vars r) "id" →
      ∃ c', books (App.UpdateBook env newResponseWriter r st).2 = pre ++ c' :: post ∧
            wbody (App.UpdateBook env newResponseWriter r st).1 = [EncBook c'] ∧
            Title c' = Title book ∧ Author c' = Author book ∧ Year c' = Year book ∧
            ID c' = ID c ∧
            Regdate c' = scanString (rregdate row) ∧
            (Regdate c = scanString (rregdate row) → Regdate c' = Regdate c))).
Proof.
  intros Hbody Hrow. split.
  - split.
    + intros (Hexec & Hrows & Hquery).
      rewrite (UpdateBook_done _ _ _ _ _ Hbody Hexec Hrows Hquery Hrow).
      unfold updateDone. cbn [fst]. by autorewrite with reply.
    + intros Hok. destruct (UpdateBook_ok _ _ _ Hok) as (? & ? & _ & ? & ? & ? & _).
      done.
  - intros Hok.
    destruct (UpdateBook_ok _ _ _ Hok) as (book' & row' & Hb & Hexec & Hrows & Hquery & Hr).
    rewrite (UpdateBook_done _ _ _ _ _ Hbody Hexec Hrows Hquery Hrow).
    unfold updateDone. cbn [fst snd books table].
    split; [intros r1; apply sqlUpdate_sets|].
    split; [apply sqlUpdate_keeps|]. split; [apply sqlUpdate_keeps|].
    intros pre c post Hbs Hpre Hc. exists (updatedOf book row).
    rewrite Hbs, (rangeFirst_app _ pre post c 0 Hpre Hc). simpl.
    rewrite insert_at_split. autorewrite with reply.
    destruct (sqlSelectById_Some _ _ _ Hrow) as [_ Hid].
    repeat split; [congruence | by intros ->].
Qed.
End Update.

(** ** Delete, then get and list *)

Lemma remove_first_clears (id : string) (bs : list Book) :
  (length (filter (λ c, ID c = id) bs) ≤ 1)%nat →
  Forall (λ c, ID c ≠ id)
    match rangeFirst id bs 0 with
    | Some (i, _) => take i bs ++ drop (S i) bs
    | None => bs
    end.
Proof.
  intros Hone. destruct (rangeFirst id bs 0) as [[i b]|] eqn:Hfirst.
  - destruct (rangeFirst_Some _ _ _ _ _ Hfirst) as (pre & post & -> & Hpre & Hb & ->).
    simpl. rewrite remove_at_split. apply Forall_app. split; [done|].
    rewrite filter_app, filter_cons, decide_True, length_app in Hone by done.
    simpl in Hone. apply Forall_forall. intros c Hc Hid.
    eapply (filter_nil_not_elem_of (λ c, ID c = id) post c); [|done..].
    destruct (filter _ post); [done|]. simpl in Hone. lia.
  - by apply rangeFirst_None in Hfirst.
Qed.

Section Delete.
Context `{TimeFormat}.

(** What [DeleteBook] does on a cache without repeated ids.  A delete for
    an id the table holds, with no database call failing and the cache
    holding at most one entry with that id, is
    answered 200 with the confirmation message; no row with the id is left;
    a get-by-id for the id that follows is answered 404; and a list that
    follows returns the cache, in which no entry has the id. *)
Theorem delete_then_absent (env env' : Env) (r r' : Request) (st : State) :
  execErr env = None → rowsAffectedErr env = None →
  (∃ row, row ∈ table st ∧ rid row = mapIndex (Vars r) "id") →
  (length (filter (λ c, ID c = mapIndex (Vars r) "id") (books st)) ≤ 1)%nat →
  StatusCode (App.DeleteBook env newResponseWriter r st).1 = StatusOK ∧
  wbody (App.DeleteBook env newResponseWriter r st).1
    = [messageBody "책이 성공적으로 삭제되었습니다"] ∧
  Forall (λ row, rid row ≠ mapIndex (Vars r) "id")
         (table (App.DeleteBook env newResponseWriter r st).2) ∧
  (mapIndex (Vars r') "id" = mapIndex (Vars r) "id" →
   StatusCode (App.GetBook env' newResponseWriter r'
                 (App.DeleteBook env newResponseWriter r st).2).1 = StatusNotFound) ∧
  ∃ bs, wbody (App.GetBooks env' newResponseWriter r'
                 (App.DeleteBook env newResponseWriter r st).2).1 = [EncBooks bs] ∧
        StatusCode (App.GetBooks env' newResponseWriter r'
                      (App.DeleteBook env newResponseWriter r st).2).1 = StatusOK ∧
        Forall (λ c, ID c ≠ mapIndex (Vars r) "id") bs.
Proof.
  intros Hexec Hrows (row & Hin & Hid) Hone.
  assert (¬ Forall (λ row, rid row ≠ mapIndex (Vars r) "id") (table st)) as Hex.
  { intros Hall. by apply (proj1 (Forall_forall _ _) Hall row). }
  rewrite (DeleteBook_done _ _ _ Hexec Hrows Hex).
  unfold deleteDone. cbn [fst snd].
  pose proof (remove_first_clears _ _ Hone) as Hclear.
  split; [by autorewrite with reply|]. split; [by autorewrite with reply|].
  split; [|split].
  - apply sqlSelectById_None, sqlSelectById_sqlDelete.
  - intros Hid'. apply GetBook_missing. cbn [books]. rewrite Hid'.
    by apply rangeFirst_None.
  - eexists. unfold App.GetBooks. fold jsonWriter. cbn [fst books].
    autorewrite with reply. repeat split; done.
Qed.
End Delete.

(** ** Start-up and the health route *)

Section Startup.
Context `{TimeFormat}.

Lemma App_scanRows_ok (boot : Boot) (rows : list Row) (acc : list Book) :
  scanErr boot = None → App.scanRows boot rows acc = inr (acc ++ map loadRow rows).
Proof.
  intros Hscan. revert acc. induction rows as [|r rows IH]; intros acc; simpl.
  - by rewrite app_nil_r.
  - rewrite Hscan, IH. by rewrite <- app_assoc.
Qed.

Lemma App_loadBooks_ok (boot : Boot) (rows : list Row) (acc : list Book) :
  scanErr boot = None →
  App.loadBooks boot rows acc = inr (acc ++ map loadRow (rowsNext boot rows)).
Proof. intros Hscan. by apply App_scanRows_ok. Qed.

Lemma MainGo_scanRows_ok (boot : Boot) (rows : list Row) (acc : list Book) :
  scanErr boot = None → MainGo.scanRows boot rows acc = inr (acc ++ map loadRow rows).
Proof.
  intros Hscan. revert acc. induction rows as [|r rows IH]; intros acc; simpl.
  - by rewrite app_nil_r.
  - rewrite Hscan, IH. by rewrite <- app_assoc.
Qed.

Lemma MainGo_loadBooks_ok (boot : Boot) (rows : list Row) (acc : list Book) :
  scanErr boot = None →
  MainGo.loadBooks boot rows acc = inr (acc ++ map loadRow (rowsNext boot rows)).
Proof. intros Hscan. by apply MainGo_scanRows_ok. Qed.

Lemma getEnv_no_default (environ : gmap string string) (key : string) :
  App.getEnv environ key "" = Getenv environ key.
Proof. unfold App.getEnv. case_decide as Hv; [done|]. by destruct (decide (Getenv environ key = "")). Qed.

(** [App.main] refuses to start when a required variable is empty. *)
Lemma App_main_refuses (environ : gmap string string) (boot : Boot) (tbl : list Row) :
  ¬ requiredSet (App.loadDotenv environ boot) →
  App.main environ boot tbl = LogFatal App.missingConfig.
Proof.
  intros Hreq. unfold App.main, App.loadConfig.
  cbn [App.DBServer App.DBUser App.DBPassword App.DBName App.APIKey].
  rewrite !getEnv_no_default. case_decide as Hmiss; [done|].
  exfalso. apply Hreq. unfold requiredSet.
  repeat split; intros Hk; apply Hmiss; rewrite Hk; tauto.
Qed.

(** [App.main] starts when the required variables are set and no database
    call fails, on the port [PORT] names, 8000 when it is unset or empty; the
    cache holds the rows that [rows.Next()] handed over. *)
Lemma App_main_starts (environ : gmap string string) (boot : Boot) (tbl : list Row) :
  requiredSet (App.loadDotenv environ boot) → bootClean boot →
  App.main environ boot tbl
  = ListenAndServe (":" ++ App.getEnv (App.loadDotenv environ boot) "PORT" "8000")%string
      (App.routes (App.authMiddleware (Getenv (App.loadDotenv environ boot) "API_KEY")))
      (App.loadDotenv environ boot) (mkState (map loadRow (rowsNext boot tbl)) tbl).
Proof.
  intros (Hs & Hu & Hp & Hn & Hk) (Hopen & Hping & Hprobe & Hcols & Hsel & Hscan).
  unfold App.main, App.loadConfig, App.connectDB.
  cbn [App.DBServer App.DBUser App.DBPassword App.DBName App.APIKey].
  rewrite !getEnv_no_default. rewrite decide_False by tauto.
  rewrite Hopen, Hping, Hprobe, Hcols, Hsel, (App_loadBooks_ok _ _ _ Hscan).
  reflexivity.
Qed.

(** [MainGo.main] starts whenever [.env] loads and no database call fails,
    whatever the variables hold, and always on port 8000. *)
Lemma MainGo_main_starts (environ vars : gmap string string) (boot : Boot) (tbl : list Row) :
  dotenvExists boot = true → dotenvVars boot = Some vars → bootClean boot →
  MainGo.main environ boot tbl
  = ListenAndServe ":8000" (MainGo.routes (godotenvLoad environ vars))
      (godotenvLoad environ vars) (mkState (map loadRow (rowsNext boot tbl)) tbl).
Proof.
  intros Hex Hvars (Hopen & Hping & Hprobe & Hcols & Hsel & Hscan).
  unfold MainGo.main, MainGo.connectDB.
  rewrite Hex, Hvars, Hopen, Hping, Hprobe, Hcols, Hsel.
  by rewrite (MainGo_loadBooks_ok _ _ _ Hscan).
Qed.

(** [GET /health] on the routes of [App.main]: [HealthCheck] runs, whatever
    the headers are. *)
Lemma App_health_open (auth : HandlerFunc → HandlerFunc) (env : Env) (r : Request) (st : State) :
  Method r = "GET" → URLPath r = ["health"] →
  ServeHTTP (App.routes auth) env newResponseWriter r st
  = (Encode (EncMap [("status", "healthy"); ("time", timeNow env)]) jsonWriter, st).
Proof.
  intros Hm Hp. unfold ServeHTTP.
  rewrite muxMatch_clean by (by rewrite Hp). unfold App.routes, HandleFunc.
  cbn [app routeMatch rpath rmethod rhandler]. rewrite Hm, Hp. reflexivity.
Qed.

(** [GET /health] on the routes of [MainGo.main]: no route matches. *)
Lemma MainGo_health_unrouted (environ : gmap string string) (env : Env) (r : Request) (st : State) :
  URLPath r = ["health"] →
  ServeHTTP (MainGo.routes environ) env newResponseWriter r st
  = (Encode (PlainText "404 page not found") (WriteHeader StatusNotFound newResponseWriter), st).
Proof.
  intros Hp. unfold ServeHTTP.
  rewrite muxMatch_clean by (by rewrite Hp). unfold MainGo.routes, HandleFunc.
  cbn [app routeMatch rpath rmethod rhandler]. rewrite Hp. reflexivity.
Qed.

(** What a process that listens has registered. *)
Lemma App_main_listening (environ e : gmap string string) (boot : Boot) (tbl : list Row)
    (addr : string) (router : list Route) (st0 : State) :
  App.main environ boot tbl = ListenAndServe addr router e st0 →
  ∃ config, App.loadConfig environ boot = inr config ∧
            router = App.routes (App.authMiddleware (App.APIKey config)) ∧
            addr = (":" ++ App.Port config)%string.
Proof.
  unfold App.main. destruct (App.loadConfig environ boot) as [msg|config]; [done|].
  repeat case_match; try done. intros [= <- <- <- <-]. by exists config.
Qed.

Lemma MainGo_main_listening (environ e : gmap string string) (boot : Boot) (tbl : list Row)
    (addr : string) (router : list Route) (st0 : State) :
  MainGo.main environ boot tbl = ListenAndServe addr router e st0 →
  router = MainGo.routes e ∧ addr = ":8000".
Proof.
  unfold MainGo.main. repeat case_match; try done. by intros [= <- <- <- <-].
Qed.

(** C8.  [GET /health] asks for no key.  On the server the second file
    starts, the route is registered and the request is answered 200 with a
    JSON object holding [status] and [time], whatever its headers are and
    whatever the state is; on the server [src/main.go] starts, no [/health]
    route is registered and the same request is answered 404. *)
Theorem health_route (env : Env) (r : Request) (st : State)
    (environ e : gmap string string) (boot : Boot) (tbl : list Row)
    (addr : string) (router : list Route) (st0 : State) :
  Method r = "GET" → URLPath r = ["health"] →
  (App.main environ boot tbl = ListenAndServe addr router e st0 →
     StatusCode (ServeHTTP router env newResponseWriter r st).1 = StatusOK ∧
     wbody (ServeHTTP router env newResponseWriter r st).1
       = [EncMap [("status", "healthy"); ("time", timeNow env)]] ∧
     (ServeHTTP router env newResponseWriter r st).2 = st) ∧
  (MainGo.main environ boot tbl = ListenAndServe addr router e st0 →
     StatusCode (ServeHTTP router env newResponseWriter r st).1 = StatusNotFound ∧
     wbody (ServeHTTP router env newResponseWriter r st).1
       = [PlainText "404 page not found"] ∧
     (ServeHTTP router env newResponseWriter r st).2 = st).
Proof.
  intros Hm Hp. split.
  - intros Hmain. destruct (App_main_listening _ _ _ _ _ _ _ Hmain) as (config & _ & -> & _).
    rewrite (App_health_open _ _ _ _ Hm Hp). cbn [fst snd].
    by autorewrite with reply.
  - intros Hmain. destruct (MainGo_main_listening _ _ _ _ _ _ _ Hmain) as [-> _].
    rewrite (MainGo_health_unrouted _ _ _ _ Hp). cbn [fst snd].
    by autorewrite with reply.
Qed.

(** C9.  With no database call failing while the process starts:
    [App.main] ends in [log.Fatal] when one of [DB_SERVER], [DB_USER],
    [DB_PASSWORD], [DB_NAME], [API_KEY] is empty, and otherwise listens on
    [":8000"] when [PORT] is unset or empty; [MainGo.main] checks none of
    the variables and listens on [":8000"] as soon as [.env] loads. *)
Theorem startup_requirements (environ : gmap string string) (boot : Boot) (tbl : list Row) :
  bootClean boot →
  (¬ requiredSet (App.loadDotenv environ boot) →
     App.main environ boot tbl = LogFatal App.missingConfig) ∧
  (requiredSet (App.loadDotenv environ boot) →
   Getenv (App.loadDotenv environ boot) "PORT" = "" →
     listenAddr (App.main environ boot tbl) = Some ":8000") ∧
  (∀ vars, dotenvExists boot = true → dotenvVars boot = Some vars →
     listenAddr (MainGo.main environ boot tbl) = Some ":8000").
Proof.
  intros Hboot. split; [|split].
  - apply App_main_refuses.
  - intros Hreq Hport. rewrite (App_main_starts _ _ _ Hreq Hboot).
    unfold App.getEnv. rewrite Hport. reflexivity.
  - intros vars Hex Hvars. by rewrite (MainGo_main_starts _ _ _ _ Hex Hvars Hboot).
Qed.
End Startup.

(** ** Concrete runs *)

Section Runs.
#[local] Existing Instance sampleTime.

(** A cache holding the id ["7"] twice: get-by-id shows the first entry, an
    update rewrites the first entry and keeps the second, a delete removes
    the first entry and keeps the second. *)
Lemma first_match_only_run :
  let first := mkBook "7" "Dune" "Herbert" 1965 "scan:200" in
  let second := mkBook "7" "Dune (old)" "Herbert" 1965 "scan:200" in
  let other := mkBook "3" "Emma" "Austen" 1815 "scan:100" in
  let st := mkState [other; first; second] [rowDune] in
  wbody (App.GetBook (envOk "" 0) newResponseWriter (getBook "7") st).1 = [EncBook first] ∧
  wbody (App.UpdateBook (envOk "" 0) newResponseWriter (putBook "7" duneRev) st).1
    = [EncBook (mkBook "7" "Dune (rev)" "Herbert" 1965 "scan:200")] ∧
  (App.UpdateBook (envOk "" 0) newResponseWriter (putBook "7" duneRev) st).2
    = mkState [other; mkBook "7" "Dune (rev)" "Herbert" 1965 "scan:200"; second]
              [mkRow "7" "Dune (rev)" "Herbert" 1965 200] ∧
  (App.DeleteBook (envOk "" 0) newResponseWriter (deleteBook "7") st).2
    = mkState [other; second] [].
Proof.
  intros first second other st.
  destruct (first_match_only (envOk "" 0) (getBook "7") [other; first; second] [rowDune])
    as [Hsplit _].
  destruct (Hsplit [other] first [second]) as (Hget & _ & Hdel);
    [reflexivity | by repeat constructor | reflexivity |].
  destruct (first_match_only (envOk "" 0) (putBook "7" duneRev)
              [other; first; second] [rowDune]) as [Hsplit' _].
  destruct (Hsplit' [other] first [second]) as (_ & Hupd & _);
    [reflexivity | by repeat constructor | reflexivity |].
  destruct Hupd as (book & row & Hbody & Hrow & Hw & Hbs & Htbl);
    [vm_compute; reflexivity|].
  assert (Some duneRev = Some book) as [= <-] by exact Hbody.
  assert (Some rowDune = Some row) as [= <-] by exact Hrow.
  destruct Hdel as [Hdbs Hdtbl]; [vm_compute; reflexivity|].
  split; [|split; [exact Hw|split]].
  - change (App.GetBook (envOk "" 0) newResponseWriter (getBook "7") st)
      with (App.GetBook (envOk "" 0) newResponseWriter (getBook "7")
              (mkState [other; first; second] [rowDune])).
    rewrite Hget. reflexivity.
  - destruct (App.UpdateBook (envOk "" 0) newResponseWriter (putBook "7" duneRev) st).2
      as [ubs utbl] eqn:Hst.
    change (App.UpdateBook (envOk "" 0) newResponseWriter (putBook "7" duneRev)
              (mkState [other; first; second] [rowDune])).2
      with (App.UpdateBook (envOk "" 0) newResponseWriter (putBook "7" duneRev) st).2
      in Hbs, Htbl.
    rewrite Hst in Hbs, Htbl. cbn [books table] in Hbs, Htbl. by rewrite Hbs, Htbl.
  - destruct (App.DeleteBook (envOk "" 0) newResponseWriter (deleteBook "7") st).2
      as [dbs dtbl] eqn:Hst.
    change (App.DeleteBook (envOk "" 0) newResponseWriter (getBook "7")
              (mkState [other; first; second] [rowDune])).2
      with (App.DeleteBook (envOk "" 0) newResponseWriter (deleteBook "7") st).2
      in Hdbs, Hdtbl.
    rewrite Hst in Hdbs, Hdtbl. cbn [books table] in Hdbs, Hdtbl. by rewrite Hdbs, Hdtbl.
Defined.

(** An update and a delete for the id ["9"], which the table does not
    hold. *)
Lemma absent_id_not_found_run :
  let st := mkState [scanRow rowDune] [rowDune] in
  StatusCode (App.UpdateBook (envOk "" 0) newResponseWriter (putBook "9" duneRev) st).1
    = StatusNotFound ∧
  (App.UpdateBook (envOk "" 0) newResponseWriter (putBook "9" duneRev) st).2 = st ∧
  StatusCode (App.DeleteBook (envOk "" 0) newResponseWriter (putBook "9" duneRev) st).1
    = StatusNotFound ∧
  (App.DeleteBook (envOk "" 0) newResponseWriter (putBook "9" duneRev) st).2 = st.
Proof.
  intros st.
  destruct (absent_id_not_found (envOk "" 0) (putBook "9" duneRev) st)
    as (Hupd & Hdel404 & Hdel & _);
    [reflexivity | reflexivity | by repeat constructor |].
  destruct (Hupd duneRev eq_refl) as (Hupd404 & Hsame & _).
  done.
Defined.

(** The scenario of the specification: a create of Dune on an empty table
    is answered 201 with the row the engine stored, and the row joins the
    cache. *)
Lemma CreateBook_contract_run :
  let res := App.CreateBook (envOk "7" 200) newResponseWriter (postBook dune)
               (mkState [] []) in
  StatusCode res.1 = StatusCreated ∧
  wbody res.1 = [EncBook (scanRow rowDune)] ∧
  res.2 = mkState [scanRow rowDune] [rowDune].
Proof.
  intros res.
  destruct CreateBook_contract as [Happ _].
  destruct (Happ (envOk "7" 200) (postBook dune) (mkState [] [])) as [_ Hsome].
  destruct (Hsome dune eq_refl) as (_ & _ & _ & Hok).
  destruct (Hok eq_refl eq_refl) as (row & Htop & H201 & Hbody & Hst).
  assert (Some rowDune = Some row) as [= <-] by exact Htop.
  done.
Defined.

(** A request without the header, and one with a wrong key, on a wrapped
    handler; the right key reaches the handler. *)
Lemma authMiddleware_gate_run :
  let st := mkState [scanRow rowDune] [rowDune] in
  let config := App.mkConfig "db.local" "sa" "pw" "1433" "bz" "s3cret" "8000" in
  App.loadConfig environFull bootPlain = inr config ∧
  StatusCode (App.authMiddleware "s3cret" App.DeleteBook (envOk "" 0) newResponseWriter
                (mkRequest "DELETE" ["books"; "7"] ∅ {[ "id" := "7" ]} None) st).1
    = StatusUnauthorized ∧
  (App.authMiddleware "s3cret" App.DeleteBook (envOk "" 0) newResponseWriter
     (mkRequest "DELETE" ["books"; "7"] (withKey "guess") {[ "id" := "7" ]} None) st).2
    = st ∧
  App.authMiddleware "s3cret" App.DeleteBook (envOk "" 0) newResponseWriter
    (deleteBook "7") st
    = App.DeleteBook (envOk "" 0) newResponseWriter (deleteBook "7") st.
Proof.
  intros st config.
  assert (App.loadConfig environFull bootPlain = inr config) as Hcfg
    by (vm_compute; reflexivity).
  destruct authMiddleware_gate as [Happ _].
  destruct (Happ environFull bootPlain config Hcfg) as [Hgate _].
  split; [exact Hcfg|]. split; [|split].
  - destruct (Hgate App.DeleteBook (envOk "" 0)
                (mkRequest "DELETE" ["books"; "7"] ∅ {[ "id" := "7" ]} None) st)
      as [H401 _].
    apply H401. left. reflexivity.
  - destruct (Hgate App.DeleteBook (envOk "" 0)
                (mkRequest "DELETE" ["books"; "7"] (withKey "guess") {[ "id" := "7" ]} None) st)
      as [H401 _].
    apply H401. right. vm_compute. discriminate.
  - destruct (Hgate App.DeleteBook (envOk "" 0) (deleteBook "7") st) as [_ Hpass].
    apply Hpass. vm_compute. reflexivity.
Defined.

(** Create on an empty table and cache, then get the returned id. *)
Lemma create_then_get_run :
  let created := App.CreateBook (envOk "7" 200) newResponseWriter (postBook dune)
                   (mkState [] []) in
  StatusCode created.1 = StatusCreated ∧
  wbody created.1 = [EncBook (scanRow rowDune)] ∧
  App.GetBook (envOk "" 0) newResponseWriter (getBook "7") created.2
    = (Encode (EncBook (scanRow rowDune)) jsonWriter, created.2).
Proof.
  intros created.
  assert (StatusCode created.1 = StatusCreated) as Hc by reflexivity.
  destruct (create_then_get (envOk "7" 200) (envOk "" 0) (postBook dune) (getBook "7")
              (mkState [] []) Hc) as (row & _ & _ & Hbody & _ & _ & Hget).
  assert (scanRow row = scanRow rowDune) as Hrow.
  { change (wbody (App.CreateBook (envOk "7" 200) newResponseWriter (postBook dune)
                     (mkState [] [])).1)
      with [EncBook (scanRow rowDune)] in Hbody. congruence. }
  rewrite Hrow in Hget.
  split; [exact Hc|]. split; [reflexivity|].
  apply Hget; [reflexivity|]. intros c Hin. by apply elem_of_nil in Hin.
Defined.

(** C1.  A create answered 201 need not return the book it inserted, and the
    get-by-id that follows need not return the book the create returned.
    [CreateBook] reads the new book back ("추가된 책 정보 조회", into
    [newBook]) with [SELECT TOP 1 ... ORDER BY regdate DESC], which is the
    latest row of the table, not the inserted row.  Here an update whose
    re-read fails has changed the row of Dune and left its cached entry; a
    create of Emma at an earlier [GETDATE()] than the regdate of that row
    then reads back the row of Dune, returns it with 201 and appends it; the
    get-by-id for the returned id is answered with the older cached entry,
    not with the book the create returned. *)
Lemma create_then_get_stale :
  let st0 := mkState [scanRow rowDune] [rowDune] in
  let updated := App.UpdateBook envQueryFails newResponseWriter (putBook "7" duneRev) st0 in
  let created := App.CreateBook (envOk "8" 100) newResponseWriter (postBook emma) updated.2 in
  let got := App.GetBook (envOk "" 0) newResponseWriter (getBook "7") created.2 in
  StatusCode updated.1 = StatusInternalServerError ∧
  updated.2 = mkState [mkBook "7" "Dune" "Herbert" 1965 "scan:200"]
                      [mkRow "7" "Dune (rev)" "Herbert" 1965 200] ∧
  StatusCode created.1 = StatusCreated ∧
  wbody created.1 = [EncBook (mkBook "7" "Dune (rev)" "Herbert" 1965 "scan:200")] ∧
  StatusCode got.1 = StatusOK ∧
  wbody got.1 = [EncBook (mkBook "7" "Dune" "Herbert" 1965 "scan:200")] ∧
  wbody got.1 ≠ wbody created.1.
Proof. vm_compute. repeat split. discriminate. Qed.

(** An update of the one stored book, cached as the handlers scan it. *)
Lemma UpdateBook_existing_run :
  let st := mkState [scanRow rowDune] [rowDune] in
  let res := App.UpdateBook (envOk "" 0) newResponseWriter (putBook "7" duneRev) st in
  StatusCode res.1 = StatusOK ∧
  books res.2 = [mkBook "7" "Dune (rev)" "Herbert" 1965 "scan:200"] ∧
  map rregdate (table res.2) = [200].
Proof.
  intros st res.
  destruct (UpdateBook_existing (envOk "" 0) (putBook "7" duneRev) st duneRev rowDune)
    as [Hiff Hthen]; [reflexivity | reflexivity |].
  assert (StatusCode res.1 = StatusOK) as Hok by (by apply Hiff).
  destruct (Hthen Hok) as (_ & _ & Hreg & Hcache).
  destruct (Hcache [] (scanRow rowDune) [])
    as (c' & Hbooks & _ & Ht & Ha & Hy & Hid & _ & Hkeep);
    [reflexivity | constructor | reflexivity |].
  split; [exact Hok|]. split; [|exact Hreg].
  fold res in Hbooks. rewrite Hbooks. simpl. f_equal.
  destruct c' as [i t a y g]. cbn in Ht, Ha, Hy, Hid, Hkeep.
  rewrite Ht, Ha, Hy, Hid, (Hkeep eq_refl). reflexivity.
Defined.

(** C4.  An update answered 200 changes the registration timestamp of the
    cached entry.  The start-up loop of [main] stores the regdate as
    [regdate.Format("2006-01-02 15:04:05")] renders it, [UpdateBook] scans
    the column into the string field and overwrites the whole entry
    ([books[i] = updatedBook]): on the server [main] starts on a table
    holding Dune, the update of its title is answered 200, the stored regdate
    is the same, and the regdate of the cached entry has gone from one
    rendering to the other. *)
Lemma update_rescans_regdate :
  let st := mkState [loadRow rowDune] [rowDune] in
  let res := App.UpdateBook (envOk "" 0) newResponseWriter (putBook "7" duneRev) st in
  App.main environFull bootPlain [rowDune]
    = ListenAndServe ":8000" (App.routes (App.authMiddleware "s3cret")) environFull st ∧
  StatusCode res.1 = StatusOK ∧
  books st = [mkBook "7" "Dune" "Herbert" 1965 "layout:200"] ∧
  books res.2 = [mkBook "7" "Dune (rev)" "Herbert" 1965 "scan:200"] ∧
  (rregdate <$> table res.2) = (rregdate <$> table st) ∧
  (Regdate <$> books res.2) ≠ (Regdate <$> books st).
Proof.
  intros st res. split; [|by vm_compute].
  rewrite App_main_starts; [reflexivity| |by repeat split].
  repeat split; vm_compute; discriminate.
Qed.

(** A delete of the one stored and cached book, then get and list. *)
Lemma delete_then_absent_run :
  let st := mkState [scanRow rowDune] [rowDune] in
  let deleted := App.DeleteBook (envOk "" 0) newResponseWriter (deleteBook "7") st in
  StatusCode deleted.1 = StatusOK ∧
  deleted.2 = mkState [] [] ∧
  StatusCode (App.GetBook (envOk "" 0) newResponseWriter (getBook "7") deleted.2).1
    = StatusNotFound.
Proof.
  intros st deleted.
  destruct (delete_then_absent (envOk "" 0) (envOk "" 0) (deleteBook "7") (getBook "7") st)
    as (H200 & _ & _ & Hget & _);
    [reflexivity | reflexivity | | vm_compute; lia |].
  { exists rowDune. split; [by left | reflexivity]. }
  split; [exact H200|]. split; [reflexivity|]. by apply Hget.
Defined.

(** C5.  After a delete answered 200 the id can still be served.  From a
    cache that mirrors the table, a create at an earlier [GETDATE()] than the
    regdate of the stored row reads that row back and appends it a second
    time; the delete of its id is answered 200, removes the row and, of the
    cache ("메모리에서도 삭제"), only the first of the two entries, where the
    loop breaks; the get-by-id that follows is answered 200, and the list
    still shows the id. *)
Lemma delete_leaves_duplicate :
  let st0 := mkState [scanRow rowDune] [rowDune] in
  let created := App.CreateBook (envOk "8" 100) newResponseWriter (postBook emma) st0 in
  let deleted := App.DeleteBook (envOk "" 0) newResponseWriter (deleteBook "7") created.2 in
  let got := App.GetBook (envOk "" 0) newResponseWriter (getBook "7") deleted.2 in
  let listed := App.GetBooks (envOk "" 0) newResponseWriter listBooks deleted.2 in
  StatusCode created.1 = StatusCreated ∧
  created.2 = mkState [scanRow rowDune; scanRow rowDune]
                      [rowDune; mkRow "8" "Emma" "Austen" 1815 100] ∧
  StatusCode deleted.1 = StatusOK ∧
  table deleted.2 = [mkRow "8" "Emma" "Austen" 1815 100] ∧
  StatusCode got.1 = StatusOK ∧
  wbody got.1 = [EncBook (scanRow rowDune)] ∧
  wbody listed.1 = [EncBooks [scanRow rowDune]].
Proof. vm_compute. repeat split. Qed.

(** [GET /health] without a key, on the servers both files start. *)
Lemma health_route_run :
  let st := mkState [loadRow rowDune] [rowDune] in
  App.main environFull bootPlain [rowDune]
    = ListenAndServe ":8000" (App.routes (App.authMiddleware "s3cret")) environFull st ∧
  StatusCode (ServeHTTP (App.routes (App.authMiddleware "s3cret")) (envOk "" 0)
                newResponseWriter getHealth st).1 = StatusOK ∧
  MainGo.main environFull bootDotenv [rowDune]
    = ListenAndServe ":8000" (MainGo.routes environFull) environFull st ∧
  StatusCode (ServeHTTP (MainGo.routes environFull) (envOk "" 0)
                newResponseWriter getHealth st).1 = StatusNotFound.
Proof.
  intros st.
  assert (App.main environFull bootPlain [rowDune]
          = ListenAndServe ":8000" (App.routes (App.authMiddleware "s3cret")) environFull st)
    as Happ.
  { rewrite App_main_starts; [reflexivity| |by repeat split].
    repeat split; vm_compute; discriminate. }
  assert (MainGo.main environFull bootDotenv [rowDune]
          = ListenAndServe ":8000" (MainGo.routes environFull) environFull st)
    as Hmain.
  { rewrite (MainGo_main_starts environFull ∅); [|reflexivity|reflexivity|by repeat split].
    unfold godotenvLoad. by rewrite (right_id_L ∅ (∪)). }
  split; [exact Happ|]. split; [|split; [exact Hmain|]].
  - destruct (health_route (envOk "" 0) getHealth st environFull environFull bootPlain
                [rowDune] ":8000" (App.routes (App.authMiddleware "s3cret")) st)
      as [[H200 _] _]; [reflexivity | reflexivity | exact Happ |]. exact H200.
  - destruct (health_route (envOk "" 0) getHealth st environFull environFull bootDotenv
                [rowDune] ":8000" (MainGo.routes environFull) st)
      as [_ [H404 _]]; [reflexivity | reflexivity | exact Hmain |]. exact H404.
Defined.

(** A process environment without [API_KEY], and an empty [.env]: the
    second file refuses to start, [src/main.go] listens. *)
Lemma startup_requirements_run :
  App.main environNoKey bootDotenv [rowDune] = LogFatal App.missingConfig ∧
  listenAddr (MainGo.main environNoKey bootDotenv [rowDune]) = Some ":8000".
Proof.
  destruct (startup_requirements environNoKey bootDotenv [rowDune])
    as (Hrefuse & _ & Hmain); [by repeat split|].
  split.
  - apply Hrefuse. intros (_ & _ & _ & _ & Hkey). by apply Hkey.
  - by apply (Hmain ∅).
Defined.
End Runs.

(** * Further properties of the two programs *)

(** ** Configuration and start-up *)

Section Config.
Context `{TimeFormat}.

Lemma getEnv_nonempty (environ : gmap string string) (key d : string) :
  d ≠ "" → App.getEnv environ key d ≠ "".
Proof. intros Hd. unfold App.getEnv. by case_decide. Qed.

Lemma getEnv_unset (environ : gmap string string) (key d : string) :
  Getenv environ key = "" → App.getEnv environ key d = d.
Proof. intros Hk. unfold App.getEnv. rewrite Hk. by rewrite decide_False by (by intros ?). Qed.

(** X1.  A configuration [loadConfig] returns has no empty field: the five required
    variables are set, and the two ports are the variables [DB_PORT] and
    [PORT] or, when these are unset or empty, ["1433"] and ["8000"]. *)
Theorem loadConfig_complete (environ : gmap string string) (boot : Boot) (config : App.Config) :
  App.loadConfig environ boot = inr config →
  App.DBServer config ≠ "" ∧ App.DBUser config ≠ "" ∧ App.DBPassword config ≠ "" ∧
  App.DBName config ≠ "" ∧ App.APIKey config ≠ "" ∧
  App.DBPort config ≠ "" ∧ App.Port config ≠ "" ∧
  (Getenv (App.loadDotenv environ boot) "DB_PORT" = "" → App.DBPort config = "1433") ∧
  (Getenv (App.loadDotenv environ boot) "PORT" = "" → App.Port config = "8000").
Proof.
  unfold App.loadConfig. case_decide as Hreq; [done|]. intros [= <-].
  cbn [App.DBServer App.DBUser App.DBPassword App.DBName App.APIKey
       App.DBPort App.Port] in *.
  repeat split; try (intros Hk; apply Hreq; rewrite Hk; tauto);
    try (by apply getEnv_nonempty); by apply getEnv_unset.
Qed.

Lemma App_loadBooks_inr (boot : Boot) (rows : list Row) (acc bs : list Book) :
  App.loadBooks boot rows acc = inr bs →
  bs = acc ++ map loadRow (rowsNext boot rows) ∧
  (rowsNext boot rows = [] ∨ scanErr boot = None).
Proof.
  unfold App.loadBooks. destruct (rowsNext boot rows) as [|r rows'].
  - simpl. intros [= <-]. rewrite app_nil_r. by split; [|left].
  - destruct (scanErr boot) as [e|] eqn:Hscan.
    + simpl. by rewrite Hscan.
    + rewrite (App_scanRows_ok _ _ _ Hscan). intros [= <-]. by split; [|right].
Qed.

Lemma MainGo_loadBooks_inr (boot : Boot) (rows : list Row) (acc bs : list Book) :
  MainGo.loadBooks boot rows acc = inr bs →
  bs = acc ++ map loadRow (rowsNext boot rows) ∧
  (rowsNext boot rows = [] ∨ scanErr boot = None).
Proof.
  unfold MainGo.loadBooks. destruct (rowsNext boot rows) as [|r rows'].
  - simpl. intros [= <-]. rewrite app_nil_r. by split; [|left].
  - destruct (scanErr boot) as [e|] eqn:Hscan.
    + simpl. by rewrite Hscan.
    + rewrite (MainGo_scanRows_ok _ _ _ Hscan). intros [= <-]. by split; [|right].
Qed.

(** X2.  [App.main] reaches [http.ListenAndServe] exactly when the five required
    variables are set after the optional load of [.env] and none of
    [sql.Open], [db.Ping], the two queries and [rows.Columns] fails; an error
    of [rows.Scan] counts only when [rows.Next()] hands over a row, and a
    fetch error that ends [rows.Next()] never counts.  A missing or
    unreadable [.env] does not stop it. *)
Theorem App_main_listens_iff (environ : gmap string string) (boot : Boot) (tbl : list Row) :
  is_Some (listenAddr (App.main environ boot tbl)) ↔
  requiredSet (App.loadDotenv environ boot) ∧
  openErr boot = None ∧ pingErr boot = None ∧ probeErr boot = None ∧
  columnsErr boot = None ∧ selectErr boot = None ∧
  (rowsNext boot tbl = [] ∨ scanErr boot = None).
Proof.
  split.
  - intros [addr Haddr]. unfold listenAddr in Haddr.
    destruct (App.main environ boot tbl) as [|a router e st0] eqn:Hmain; [done|].
    assert (requiredSet (App.loadDotenv environ boot)) as Hreq.
    { destruct (decide (Getenv (App.loadDotenv environ boot) "DB_SERVER" = "")) as [Hk|?];
      [|destruct (decide (Getenv (App.loadDotenv environ boot) "DB_USER" = "")) as [Hk|?];
      [|destruct (decide (Getenv (App.loadDotenv environ boot) "DB_PASSWORD" = "")) as [Hk|?];
      [|destruct (decide (Getenv (App.loadDotenv environ boot) "DB_NAME" = "")) as [Hk|?];
      [|destruct (decide (Getenv (App.loadDotenv environ boot) "API_KEY" = "")) as [Hk|?];
      [|done]]]]];
      rewrite App_main_refuses in Hmain; try done; intros (?&?&?&?&?); done. }
    split; [done|]. revert Hmain. unfold App.main, App.connectDB.
    destruct (App.loadConfig environ boot) as [|config]; [done|].
    destruct (openErr boot); [done|]. destruct (pingErr boot); [done|].
    destruct (probeErr boot); [done|]. destruct (columnsErr boot); [done|].
    destruct (selectErr boot); [done|].
    destruct (App.loadBooks boot tbl []) as [|bs] eqn:Hload; [done|].
    intros _. by destruct (App_loadBooks_inr _ _ _ _ Hload) as [_ ?].
  - intros (Hreq & Hopen & Hping & Hprobe & Hcols & Hsel & Hscan).
    destruct Hscan as [Hnil|Hscan].
    + destruct Hreq as (Hs & Hu & Hp & Hn & Hk).
      unfold App.main, App.loadConfig, App.connectDB, App.loadBooks.
      cbn [App.DBServer App.DBUser App.DBPassword App.DBName App.APIKey].
      rewrite !getEnv_no_default. rewrite decide_False by tauto.
      rewrite Hopen, Hping, Hprobe, Hcols, Hsel, Hnil. simpl. eauto.
    + rewrite App_main_starts; [by eexists|done|by repeat split].
Qed.

(** X3.  [MainGo.main] reaches [http.ListenAndServe] exactly when [.env] exists
    and loads and no start-up call fails (a scan error counting only when
    [rows.Next()] hands over a row, a fetch error that ends [rows.Next()]
    never); no variable is looked at, and the address is always [":8000"]. *)
Theorem MainGo_main_listens_iff (environ : gmap string string) (boot : Boot) (tbl : list Row) :
  (is_Some (listenAddr (MainGo.main environ boot tbl)) ↔
   dotenvExists boot = true ∧ is_Some (dotenvVars boot) ∧
   openErr boot = None ∧ pingErr boot = None ∧ probeErr boot = None ∧
   columnsErr boot = None ∧ selectErr boot = None ∧
   (rowsNext boot tbl = [] ∨ scanErr boot = None)) ∧
  (∀ addr, listenAddr (MainGo.main environ boot tbl) = Some addr → addr = ":8000").
Proof.
  split; [split|].
  - intros [addr Haddr]. unfold listenAddr in Haddr.
    destruct (MainGo.main environ boot tbl) as [|a router e st0] eqn:Hmain; [done|].
    revert Hmain. unfold MainGo.main, MainGo.connectDB.
    destruct (dotenvExists boot); [|done].
    destruct (dotenvVars boot) as [vars|]; [|done].
    destruct (openErr boot); [done|]. destruct (pingErr boot); [done|].
    destruct (probeErr boot); [done|]. destruct (columnsErr boot); [done|].
    destruct (selectErr boot); [done|].
    destruct (MainGo.loadBooks boot tbl []) as [|bs] eqn:Hload; [done|].
    intros _. destruct (MainGo_loadBooks_inr _ _ _ _ Hload) as [_ ?]. eauto 10.
  - intros (Hex & [vars Hvars] & Hopen & Hping & Hprobe & Hcols & Hsel & Hscan).
    destruct Hscan as [Hnil|Hscan].
    + unfold MainGo.main, MainGo.connectDB, MainGo.loadBooks.
      rewrite Hex, Hvars, Hopen, Hping, Hprobe, Hcols, Hsel, Hnil. simpl. eauto.
    + rewrite (MainGo_main_starts _ vars); [by eexists|done|done|by repeat split].
  - intros addr. unfold listenAddr.
    destruct (MainGo.main environ boot tbl) as [|a router e st0] eqn:Hmain; [done|].
    intros [= <-]. by destruct (MainGo_main_listening _ _ _ _ _ _ _ Hmain).
Qed.
End Config.

(** ** Which handler serves which request *)

Section Dispatch.
Context `{TimeFormat}.

(** What a match of the routes of [App.main] can be. *)
Lemma App_dispatch_cases (auth : HandlerFunc → HandlerFunc) (r : Request)
    (h : HandlerFunc) (vars : gmap string string) :
  muxMatch (App.routes auth) r = Matched h vars →
  (h = App.HealthCheck ∧ Method r = "GET" ∧ URLPath r = ["health"]) ∨
  (h = auth App.GetBooks ∧ Method r = "GET" ∧ URLPath r = ["books"]) ∨
  (h = auth App.GetBook ∧ Method r = "GET" ∧
     ∃ x, x ≠ "" ∧ URLPath r = ["books"; x] ∧ vars = {[ "id" := x ]}) ∨
  (h = auth App.CreateBook ∧ Method r = "POST" ∧ URLPath r = ["books"]) ∨
  (h = auth App.UpdateBook ∧ Method r = "PUT" ∧
     ∃ x, x ≠ "" ∧ URLPath r = ["books"; x] ∧ vars = {[ "id" := x ]}) ∨
  (h = auth App.DeleteBook ∧ Method r = "DELETE" ∧
     ∃ x, x ≠ "" ∧ URLPath r = ["books"; x] ∧ vars = {[ "id" := x ]}).
Proof.
  intros [_ Hm]%muxMatch_Matched. revert Hm.
  unfold App.routes, HandleFunc. cbn [app routeMatch rpath rmethod rhandler].
  destruct (URLPath r) as [|p [|x [|y path]]]; simpl; [done| | |].
  - repeat case_decide; simplify_eq; try done; intros [= <- <-]; naive_solver.
  - repeat case_decide; simplify_eq; try done; intros [= <- <-]; naive_solver.
  - by repeat case_decide.
Qed.

Lemma MainGo_dispatch_cases (environ : gmap string string) (r : Request)
    (h : HandlerFunc) (vars : gmap string string) :
  muxMatch (MainGo.routes environ) r = Matched h vars →
  (h = MainGo.authMiddleware environ MainGo.GetBooks ∧ Method r = "GET" ∧
     URLPath r = ["books"]) ∨
  (h = MainGo.authMiddleware environ MainGo.GetBook ∧ Method r = "GET" ∧
     ∃ x, x ≠ "" ∧ URLPath r = ["books"; x] ∧ vars = {[ "id" := x ]}) ∨
  (h = MainGo.authMiddleware environ MainGo.CreateBook ∧ Method r = "POST" ∧
     URLPath r = ["books"]) ∨
  (h = MainGo.authMiddleware environ MainGo.UpdateBook ∧ Method r = "PUT" ∧
     ∃ x, x ≠ "" ∧ URLPath r = ["books"; x] ∧ vars = {[ "id" := x ]}) ∨
  (h = MainGo.authMiddleware environ MainGo.DeleteBook ∧ Method r = "DELETE" ∧
     ∃ x, x ≠ "" ∧ URLPath r = ["books"; x] ∧ vars = {[ "id" := x ]}).
Proof.
  intros [_ Hm]%muxMatch_Matched. revert Hm.
  unfold MainGo.routes, HandleFunc. cbn [app routeMatch rpath rmethod rhandler].
  destruct (URLPath r) as [|p [|x [|y path]]]; simpl; [done| | |].
  - repeat case_decide; simplify_eq; try done; intros [= <- <-]; naive_solver.
  - repeat case_decide; simplify_eq; try done; intros [= <- <-]; naive_solver.
  - by repeat case_decide.
Qed.
End Dispatch.

Section Routing.
Context `{TimeFormat}.

Lemma cleanPath_id (x : string) :
  x ≠ "" → x ≠ "." → x ≠ ".." → cleanPath ["books"; x] = ["books"; x].
Proof.
  intros H0 H1 H2. unfold cleanPath. simpl.
  rewrite (decide_False (P := Some x = Some "")) by (by intros [= ?]).
  rewrite !(decide_False (P := x = "" ∨ x = ".")) by (by intros [?|?]).
  rewrite !(decide_False (P := x = "..")) by done.
  by rewrite decide_False.
Qed.

Lemma routeMatch_not_Redirect (router : list Route) (r : Request) (path : list string) :
  routeMatch router r ≠ Redirect path.
Proof.
  induction router as [|rt router IH]; simpl; [done|].
  destruct (matchPath _ _ _); [|done]. case_decide; [done|].
  by destruct (routeMatch router r).
Qed.

Ltac route_step :=
  unfold ServeHTTP;
  rewrite muxMatch_clean
    by (repeat match goal with
               | Hp : URLPath ?r = _ |- _ => rewrite Hp
               end; first [reflexivity | by apply cleanPath_id]);
  unfold App.routes, MainGo.routes, HandleFunc;
  cbn [app routeMatch rpath rmethod rhandler];
  repeat match goal with
  | Hp : URLPath ?r = _ |- _ => rewrite Hp
  end; simpl;
  repeat match goal with
  | Hm : Method ?r = _ |- _ => rewrite Hm
  end;
  repeat (case_decide; simplify_eq; try done).

(** X5.  The routes of [App.main], request by request.  On a clean path each
    of the five book endpoints reaches its handler behind the middleware,
    with the path variable [id] set from the path and nothing shadowed by an
    earlier route; a known path with another method is answered 405 and any
    other clean path 404, [/books/] included.  A path that is not clean (a
    doubled slash, a [.] or [..] segment, no path at all) is answered 301
    with the clean path in [Location], whatever the method.  404, 405 and
    301 leave the state as it is. *)
Theorem App_routing_table (auth : HandlerFunc → HandlerFunc) (env : Env)
    (w : ResponseWriter) (r : Request) (st : State) :
  (URLPath r = ["books"] →
     (Method r = "GET" →
        ServeHTTP (App.routes auth) env w r st
        = auth App.GetBooks env w (mkRequest "GET" ["books"] (Header r) ∅ (Body r)) st) ∧
     (Method r = "POST" →
        ServeHTTP (App.routes auth) env w r st
        = auth App.CreateBook env w (mkRequest "POST" ["books"] (Header r) ∅ (Body r)) st) ∧
     (Method r ≠ "GET" → Method r ≠ "POST" →
        ServeHTTP (App.routes auth) env w r st = (WriteHeader StatusMethodNotAllowed w, st))) ∧
  (∀ x, x ≠ "" → x ≠ "." → x ≠ ".." → URLPath r = ["books"; x] →
     (Method r = "GET" →
        ServeHTTP (App.routes auth) env w r st
        = auth App.GetBook env w
            (mkRequest "GET" ["books"; x] (Header r) {[ "id" := x ]} (Body r)) st) ∧
     (Method r = "PUT" →
        ServeHTTP (App.routes auth) env w r st
        = auth App.UpdateBook env w
            (mkRequest "PUT" ["books"; x] (Header r) {[ "id" := x ]} (Body r)) st) ∧
     (Method r = "DELETE" →
        ServeHTTP (App.routes auth) env w r st
        = auth App.DeleteBook env w
            (mkRequest "DELETE" ["books"; x] (Header r) {[ "id" := x ]} (Body r)) st) ∧
     (Method r ≠ "GET" → Method r ≠ "PUT" → Method r ≠ "DELETE" →
        ServeHTTP (App.routes auth) env w r st = (WriteHeader StatusMethodNotAllowed w, st))) ∧
  (URLPath r = ["health"] → Method r ≠ "GET" →
     ServeHTTP (App.routes auth) env w r st = (WriteHeader StatusMethodNotAllowed w, st)) ∧
  (cleanPath (URLPath r) = URLPath r →
   URLPath r ≠ ["health"] → URLPath r ≠ ["books"] →
   (∀ x, x ≠ "" → URLPath r ≠ ["books"; x]) →
     ServeHTTP (App.routes auth) env w r st
     = (Encode (PlainText "404 page not found") (WriteHeader StatusNotFound w), st)) ∧
  (cleanPath (URLPath r) ≠ URLPath r →
     ServeHTTP (App.routes auth) env w r st
     = (WriteHeader StatusMovedPermanently
          (HeaderSet "Location" (pathString (cleanPath (URLPath r))) w), st)).
Proof.
  split; [|split; [|split; [|split]]].
  - intros Hp. repeat split; intros; by route_step.
  - intros x Hx Hdot Hdots Hp. repeat split; intros; by route_step.
  - intros Hp Hm. by route_step.
  - intros Hclean Hh Hb Hx. unfold ServeHTTP.
    destruct (muxMatch (App.routes auth) r) as [h vars| | |path] eqn:Hmatch; [| |done|].
    + apply App_dispatch_cases in Hmatch.
      destruct Hmatch
        as [(_&_&?)|[(_&_&?)|[(_&_&(x&?&?&_))|[(_&_&?)|[(_&_&(x&?&?&_))|(_&_&(x&?&?&_))]]]]];
        exfalso; first [done | by eapply Hx].
    + exfalso. rewrite (muxMatch_clean _ _ Hclean) in Hmatch.
      revert Hmatch. unfold App.routes, HandleFunc.
      cbn [app routeMatch rpath rmethod rhandler].
      destruct (URLPath r) as [|p [|x [|y path]]]; simpl; [done| | |].
      * repeat case_decide; simplify_eq; done.
      * repeat case_decide; simplify_eq; try done. naive_solver.
      * by repeat case_decide.
    + exfalso. rewrite (muxMatch_clean _ _ Hclean) in Hmatch.
      by apply routeMatch_not_Redirect in Hmatch.
  - intros Hclean. unfold ServeHTTP. by rewrite (muxMatch_unclean _ _ Hclean).
Qed.
End Routing.

(** ** What the handlers do to the cache and to the table *)

Section CacheShape.
Context `{TimeFormat}.
Implicit Types (env : Env) (r : Request) (st : State).

Lemma CreateBook_failed env r st :
  StatusCode (App.CreateBook env newResponseWriter r st).1 ≠ StatusCreated →
  books (App.CreateBook env newResponseWriter r st).2 = books st.
Proof.
  unfold App.CreateBook, dbExec, dbQueryRow. fold jsonWriter.
  repeat case_match; cbn [fst snd books]; autorewrite with reply; done.
Qed.

Lemma UpdateBook_failed env r st :
  StatusCode (App.UpdateBook env newResponseWriter r st).1 ≠ StatusOK →
  books (App.UpdateBook env newResponseWriter r st).2 = books st.
Proof.
  unfold App.UpdateBook, dbExec, RowsAffected, dbQueryRow. fold jsonWriter.
  repeat case_match; cbn [fst snd books]; autorewrite with reply; done.
Qed.

Lemma DeleteBook_failed env r st :
  StatusCode (App.DeleteBook env newResponseWriter r st).1 ≠ StatusOK →
  books (App.DeleteBook env newResponseWriter r st).2 = books st.
Proof.
  unfold App.DeleteBook, dbExec, RowsAffected. fold jsonWriter.
  repeat case_match; cbn [fst snd books]; autorewrite with reply; done.
Qed.

(** X7.  An answer other than 201 from [CreateBook], or other than 200 from
    [UpdateBook] or [DeleteBook], comes with the cache exactly as it was. *)
Theorem failure_leaves_cache env r st :
  (StatusCode (App.CreateBook env newResponseWriter r st).1 ≠ StatusCreated →
     books (App.CreateBook env newResponseWriter r st).2 = books st) ∧
  (StatusCode (App.UpdateBook env newResponseWriter r st).1 ≠ StatusOK →
     books (App.UpdateBook env newResponseWriter r st).2 = books st) ∧
  (StatusCode (App.DeleteBook env newResponseWriter r st).1 ≠ StatusOK →
     books (App.DeleteBook env newResponseWriter r st).2 = books st).
Proof.
  split; [apply CreateBook_failed | split; [apply UpdateBook_failed | apply DeleteBook_failed]].
Qed.

(** X8.  Whatever the outcome: [CreateBook] leaves the cache or appends one entry
    at its end; [UpdateBook] keeps the number of entries and the id at every
    position; [DeleteBook] leaves the cache or removes one entry, the others
    staying in order. *)
Theorem cache_shape env r st :
  (books (App.CreateBook env newResponseWriter r st).2 = books st ∨
   ∃ b, books (App.CreateBook env newResponseWriter r st).2 = books st ++ [b]) ∧
  map ID (books (App.UpdateBook env newResponseWriter r st).2) = map ID (books st) ∧
  length (books (App.UpdateBook env newResponseWriter r st).2) = length (books st) ∧
  (books (App.DeleteBook env newResponseWriter r st).2 = books st ∨
   ∃ pre b post, books st = pre ++ b :: post ∧
                 books (App.DeleteBook env newResponseWriter r st).2 = pre ++ post).
Proof.
  assert (map ID (books (App.UpdateBook env newResponseWriter r st).2) = map ID (books st))
    as Hids.
  { destruct (decide (StatusCode (App.UpdateBook env newResponseWriter r st).1 = StatusOK))
      as [Hok|Hno].
    - destruct (UpdateBook_ok _ _ _ Hok) as (book & row & Hb & He & Hr & Hq & Hrow).
      rewrite (UpdateBook_done _ _ _ _ _ Hb He Hr Hq Hrow). unfold updateDone.
      cbn [snd books].
      destruct (rangeFirst _ (books st) 0) as [[i c]|] eqn:Hfirst; [|done].
      destruct (rangeFirst_Some _ _ _ _ _ Hfirst) as (pre & post & Hbs & _ & Hc & ->).
      rewrite Hbs. simpl. rewrite insert_at_split, !map_app. simpl.
      destruct (sqlSelectById_Some _ _ _ Hrow) as [_ Hid]. congruence.
    - by rewrite (UpdateBook_failed _ _ _ Hno). }
  split; [|split; [done|split]].
  - unfold App.CreateBook, dbExec, dbQueryRow.
    repeat case_match; cbn [snd books]; eauto.
  - by rewrite <- (length_map ID), Hids, length_map.
  - unfold App.DeleteBook, dbExec, RowsAffected.
    repeat case_match; cbn [snd books]; eauto.
    all: right; match goal with Hf : rangeFirst _ _ _ = Some _ |- _ =>
      destruct (rangeFirst_Some _ _ _ _ _ Hf) as (pre & post & Hbs & _ & _ & ->) end.
    all: do 3 eexists; split; [exact Hbs|]; rewrite Hbs; simpl; apply remove_at_split.
Qed.
End CacheShape.

(** ** Failures after the statement has run *)

Section LateFailure.
Context `{TimeFormat}.
Implicit Types (env : Env) (r : Request) (st : State).

(** X9.  A 500 from [UpdateBook] or [DeleteBook] does not mean that nothing was
    written.  When the statement runs and only [RowsAffected] fails, or, for
    an update of a stored id, only the re-read fails, the answer is 500 and
    the cache is as it was, while the table has been changed: the rows with
    the id carry the values of the body, or are gone. *)
Theorem late_failure_writes env r st :
  execErr env = None →
  (∀ book, Body r = Some book →
     is_Some (rowsAffectedErr env) ∨
       (is_Some (queryErr env) ∧
        ¬ Forall (λ row, rid row ≠ mapIndex (Vars r) "id") (table st)) →
     StatusCode (App.UpdateBook env newResponseWriter r st).1 = StatusInternalServerError ∧
     books (App.UpdateBook env newResponseWriter r st).2 = books st ∧
     table (App.UpdateBook env newResponseWriter r st).2
       = (sqlUpdate (mapIndex (Vars r) "id") (Title book) (Author book) (Year book)
            (table st)).1 ∧
     ∀ row, row ∈ table (App.UpdateBook env newResponseWriter r st).2 →
            rid row = mapIndex (Vars r) "id" →
            rtitle row = Title book ∧ rauthor row = Author book ∧ ryear row = Year book) ∧
  (is_Some (rowsAffectedErr env) →
     StatusCode (App.DeleteBook env newResponseWriter r st).1 = StatusInternalServerError ∧
     books (App.DeleteBook env newResponseWriter r st).2 = books st ∧
     table (App.DeleteBook env newResponseWriter r st).2
       = (sqlDelete (mapIndex (Vars r) "id") (table st)).1 ∧
     Forall (λ row, rid row ≠ mapIndex (Vars r) "id")
            (table (App.DeleteBook env newResponseWriter r st).2)).
Proof.
  intros Hexec. split.
  - intros book Hbody Hlate.
    assert (App.UpdateBook env newResponseWriter r st
            = ((App.UpdateBook env newResponseWriter r st).1,
               mkState (books st)
                 (sqlUpdate (mapIndex (Vars r) "id") (Title book) (Author book)
                    (Year book) (table st)).1) ∧
            StatusCode (App.UpdateBook env newResponseWriter r st).1
            = StatusInternalServerError) as [Heq Hst].
    { unfold App.UpdateBook, dbExec, RowsAffected, dbQueryRow. fold jsonWriter.
      rewrite Hbody, Hexec. cbn [sqlUpdate].
      destruct Hlate as [[e ->]|[[e ->] Hrow]].
      - cbn [fst snd]. by autorewrite with reply.
      - destruct (rowsAffectedErr env); [cbn [fst snd]; by autorewrite with reply|].
        rewrite decide_False by (by rewrite affected_zero).
        cbn [fst snd]. by autorewrite with reply. }
    rewrite Heq. cbn [fst snd books table]. split; [by rewrite <- Hst, Heq|].
    split; [done|]. split; [done|]. intros row. apply sqlUpdate_sets.
  - intros [e He].
    assert (App.DeleteBook env newResponseWriter r st
            = (Encode (errorBody "삭제 결과 확인 실패")
                 (WriteHeader StatusInternalServerError jsonWriter),
               mkState (books st) (sqlDelete (mapIndex (Vars r) "id") (table st)).1))
      as ->.
    { unfold App.DeleteBook, dbExec, RowsAffected. fold jsonWriter.
      rewrite Hexec. cbn [sqlDelete]. by rewrite He. }
    cbn [fst snd books table]. split; [by autorewrite with reply|].
    split; [done|]. split; [done|].
    apply sqlSelectById_None, sqlSelectById_sqlDelete.
Qed.
End LateFailure.

(** ** One request after another *)

Section Compose.
Context `{TimeFormat}.
Implicit Types (env : Env) (r : Request) (st : State).

(** X11.  The book an update returned is the book a get-by-id for the same id then
    returns, when the cache held the id; when it did not, the update is still
    answered 200 and the get that follows is answered 404. *)
Theorem update_then_get env env' r r' st :
  mapIndex (Vars r') "id" = mapIndex (Vars r) "id" →
  StatusCode (App.UpdateBook env newResponseWriter r st).1 = StatusOK →
  (¬ Forall (λ c, ID c ≠ mapIndex (Vars r) "id") (books st) →
     StatusCode (App.GetBook env' newResponseWriter r'
                   (App.UpdateBook env newResponseWriter r st).2).1 = StatusOK ∧
     wbody (App.GetBook env' newResponseWriter r'
              (App.UpdateBook env newResponseWriter r st).2).1
       = wbody (App.UpdateBook env newResponseWriter r st).1) ∧
  (Forall (λ c, ID c ≠ mapIndex (Vars r) "id") (books st) →
     StatusCode (App.GetBook env' newResponseWriter r'
                   (App.UpdateBook env newResponseWriter r st).2).1 = StatusNotFound).
Proof.
  intros Hid Hok.
  destruct (UpdateBook_ok _ _ _ Hok) as (book & row & Hb & He & Hr & Hq & Hrow).
  rewrite (UpdateBook_done _ _ _ _ _ Hb He Hr Hq Hrow). unfold updateDone.
  cbn [fst snd books].
  destruct (sqlSelectById_Some _ _ _ Hrow) as [_ Hrid].
  split.
  - intros Hin. rewrite <- rangeFirst_None with (i := 0%nat) in Hin.
    destruct (rangeFirst _ (books st) 0) as [[i c]|] eqn:Hfirst; [|done].
    destruct (rangeFirst_Some _ _ _ _ _ Hfirst) as (pre & post & Hbs & Hpre & Hc & ->).
    rewrite Hbs. simpl. rewrite insert_at_split.
    erewrite GetBook_found.
    + cbn [fst]. by autorewrite with reply.
    + cbn [books]. rewrite Hid. by apply rangeFirst_app.
  - intros Hall. pose proof Hall as Hnone.
    rewrite <- rangeFirst_None with (i := 0%nat) in Hnone. rewrite Hnone.
    apply GetBook_missing. cbn [books]. by rewrite Hid.
Qed.

Lemma sqlSelectTop1_last (tbl : list Row) (row : Row) :
  Forall (λ x, rregdate x < rregdate row) tbl →
  sqlSelectTop1 (tbl ++ [row]) = Some row.
Proof.
  induction 1 as [|x tbl Hx Hall IH]; simpl; [done|].
  rewrite IH. by rewrite decide_True.
Qed.

(** X12.  When [GETDATE()] is later than every stored regdate, a create that meets
    no database error returns, with 201, the book it has just inserted: the
    id the engine gave, the title, author and year of the body, the new
    regdate as scanned. *)
Theorem create_returns_inserted env r st book :
  Body r = Some book → execErr env = None → queryErr env = None →
  Forall (λ x, rregdate x < getdate env) (table st) →
  StatusCode (App.CreateBook env newResponseWriter r st).1 = StatusCreated ∧
  wbody (App.CreateBook env newResponseWriter r st).1
    = [EncBook (mkBook (newId env) (Title book) (Author book) (Year book)
                       (scanString (getdate env)))].
Proof.
  intros Hb He Hq Hlate.
  unfold App.CreateBook, dbExec, dbQueryRow. fold jsonWriter.
  rewrite Hb, He, Hq. unfold sqlInsert. rewrite sqlSelectTop1_last by done.
  cbn [fst]. by autorewrite with reply.
Qed.

(** X13.  When a stored row has a regdate later than [GETDATE()], a create that
    meets no database error still answers 201, but with a row that was stored
    before: the inserted row is in the table and is neither returned nor
    cached. *)
Theorem create_returns_other env r st book row0 :
  Body r = Some book → execErr env = None → queryErr env = None →
  row0 ∈ table st → getdate env < rregdate row0 →
  ∃ row, row ∈ table st ∧ getdate env < rregdate row ∧
    StatusCode (App.CreateBook env newResponseWriter r st).1 = StatusCreated ∧
    wbody (App.CreateBook env newResponseWriter r st).1 = [EncBook (scanRow row)] ∧
    books (App.CreateBook env newResponseWriter r st).2 = books st ++ [scanRow row] ∧
    table (App.CreateBook env newResponseWriter r st).2
      = table st ++ [mkRow (newId env) (Title book) (Author book) (Year book) (getdate env)].
Proof.
  intros Hb He Hq Hin Hlater.
  unfold App.CreateBook, dbExec, dbQueryRow. fold jsonWriter.
  rewrite Hb, He, Hq. unfold sqlInsert.
  destruct (sqlSelectTop1_is_Some
              (table st ++ [mkRow (newId env) (Title book) (Author book) (Year book)
                              (getdate env)])) as [row Htop]; [by destruct (table st)|].
  rewrite Htop. destruct (sqlSelectTop1_max _ _ Htop) as [Hrow Hmax].
  assert (rregdate row0 ≤ rregdate row) as Hle.
  { apply (proj1 (Forall_forall _ _) Hmax). apply elem_of_app. by left. }
  exists row. apply elem_of_app in Hrow as [Hrow|Hrow].
  - cbn [fst snd books table]. autorewrite with reply.
    repeat split; [done | lia].
  - apply list_elem_of_singleton in Hrow. subst row. simpl in Hle. lia.
Qed.

Lemma UpdateBook_absent env r st book :
  Body r = Some book → execErr env = None → rowsAffectedErr env = None →
  Forall (λ row, rid row ≠ mapIndex (Vars r) "id") (table st) →
  App.UpdateBook env newResponseWriter r st
  = (Encode (errorBody "수정할 책을 찾을 수 없습니다")
       (WriteHeader StatusNotFound jsonWriter), st).
Proof.
  intros Hbody Hexec Hrows Habs.
  unfold App.UpdateBook, dbExec, RowsAffected. fold jsonWriter.
  rewrite Hbody, Hexec. cbn [sqlUpdate]. rewrite Hrows.
  rewrite decide_True by by apply affected_zero.
  pose proof (sqlUpdate_absent _ (Title book) (Author book) (Year book) _ Habs) as Hsame.
  cbn [sqlUpdate fst] in Hsame. rewrite Hsame. by destruct st.
Qed.

Lemma DeleteBook_absent env r st :
  execErr env = None → rowsAffectedErr env = None →
  Forall (λ row, rid row ≠ mapIndex (Vars r) "id") (table st) →
  App.DeleteBook env newResponseWriter r st
  = (Encode (errorBody "삭제할 책을 찾을 수 없습니다")
       (WriteHeader StatusNotFound jsonWriter), st).
Proof.
  intros Hexec Hrows Habs.
  unfold App.DeleteBook, dbExec, RowsAffected. fold jsonWriter.
  rewrite Hexec. cbn [sqlDelete]. rewrite Hrows.
  rewrite decide_True by by apply affected_zero.
  pose proof (sqlDelete_absent _ _ Habs) as Hsame.
  cbn [sqlDelete fst] in Hsame. rewrite Hsame. by destruct st.
Qed.

(** X14.  After a delete answered 200, the same delete again, and an update of the
    same id, are answered 404 and change nothing, whatever the cache holds,
    as long as their own statement runs. *)
Theorem delete_then_not_found env env' r r' st :
  mapIndex (Vars r') "id" = mapIndex (Vars r) "id" →
  StatusCode (App.DeleteBook env newResponseWriter r st).1 = StatusOK →
  execErr env' = None → rowsAffectedErr env' = None →
  StatusCode (App.DeleteBook env' newResponseWriter r'
                (App.DeleteBook env newResponseWriter r st).2).1 = StatusNotFound ∧
  (App.DeleteBook env' newResponseWriter r' (App.DeleteBook env newResponseWriter r st).2).2
    = (App.DeleteBook env newResponseWriter r st).2 ∧
  (is_Some (Body r') →
     StatusCode (App.UpdateBook env' newResponseWriter r'
                   (App.DeleteBook env newResponseWriter r st).2).1 = StatusNotFound ∧
     (App.UpdateBook env' newResponseWriter r' (App.DeleteBook env newResponseWriter r st).2).2
       = (App.DeleteBook env newResponseWriter r st).2).
Proof.
  intros Hid Hok Hexec' Hrows'.
  destruct (DeleteBook_ok _ _ _ Hok) as (Hexec & Hrows & Hrow).
  assert (Forall (λ row, rid row ≠ mapIndex (Vars r') "id")
            (table (App.DeleteBook env newResponseWriter r st).2)) as Hgone.
  { rewrite (DeleteBook_done _ _ _ Hexec Hrows Hrow). unfold deleteDone.
    cbn [snd table]. rewrite Hid. apply sqlSelectById_None, sqlSelectById_sqlDelete. }
  rewrite (DeleteBook_absent _ _ _ Hexec' Hrows' Hgone). cbn [fst snd].
  split; [by autorewrite with reply|]. split; [done|].
  intros [book Hbody].
  rewrite (UpdateBook_absent _ _ _ _ Hbody Hexec' Hrows' Hgone). cbn [fst snd].
  by autorewrite with reply.
Qed.
End Compose.

(** ** The two files side by side *)

Section Agree.
Context `{TimeFormat}.
Implicit Types (env : Env) (r : Request) (st : State).

Lemma agree_refl env (a : ResponseWriter * State) : agree env a a.
Proof. by repeat split. Qed.

Lemma GetBooks_agree env r st :
  agree env (App.GetBooks env newResponseWriter r st)
            (MainGo.GetBooks env newResponseWriter r st).
Proof. done. Qed.

Lemma GetBook_agree env r st :
  agree env (App.GetBook env newResponseWriter r st)
            (MainGo.GetBook env newResponseWriter r st).
Proof. unfold App.GetBook, MainGo.GetBook. by repeat case_match. Qed.

Lemma CreateBook_agree env r st :
  agree env (App.CreateBook env newResponseWriter r st)
            (MainGo.CreateBook env newResponseWriter r st).
Proof.
  unfold App.CreateBook, MainGo.CreateBook, dbExec.
  repeat case_match; try done; unfold agree; repeat split; try done; congruence.
Qed.

Lemma UpdateBook_agree env r st :
  agree env (App.UpdateBook env newResponseWriter r st)
            (MainGo.UpdateBook env newResponseWriter r st).
Proof.
  unfold App.UpdateBook, MainGo.UpdateBook, dbExec.
  repeat case_match; try done; unfold agree; repeat split; try done; congruence.
Qed.

Lemma DeleteBook_agree env r st :
  agree env (App.DeleteBook env newResponseWriter r st)
            (MainGo.DeleteBook env newResponseWriter r st).
Proof.
  unfold App.DeleteBook, MainGo.DeleteBook, dbExec.
  repeat case_match; try done; unfold agree; repeat split; try done; congruence.
Qed.

Lemma authMiddleware_agree (environ : gmap string string) (h h' : HandlerFunc) env r st :
  agree env (h env newResponseWriter r st) (h' env newResponseWriter r st) →
  agree env (App.authMiddleware (Getenv environ "API_KEY") h env newResponseWriter r st)
            (MainGo.authMiddleware environ h' env newResponseWriter r st).
Proof.
  intros Hh. unfold App.authMiddleware, MainGo.authMiddleware.
  repeat case_decide; try done; apply agree_refl.
Qed.

(** X15.  The handlers of the two files answer a request alike: for each of the
    five book handlers, same status and same next state always, and the same
    written values unless [db.Exec] failed; the second file only adds the
    [Content-Type] header. *)
Theorem handlers_agree env r st :
  agree env (App.GetBooks env newResponseWriter r st)
            (MainGo.GetBooks env newResponseWriter r st) ∧
  agree env (App.GetBook env newResponseWriter r st)
            (MainGo.GetBook env newResponseWriter r st) ∧
  agree env (App.CreateBook env newResponseWriter r st)
            (MainGo.CreateBook env newResponseWriter r st) ∧
  agree env (App.UpdateBook env newResponseWriter r st)
            (MainGo.UpdateBook env newResponseWriter r st) ∧
  agree env (App.DeleteBook env newResponseWriter r st)
            (MainGo.DeleteBook env newResponseWriter r st).
Proof.
  split; [apply GetBooks_agree|]. split; [apply GetBook_agree|].
  split; [apply CreateBook_agree|]. split; [apply UpdateBook_agree | apply DeleteBook_agree].
Qed.

(** X16.  The servers of the two files answer every request alike, the health
    check apart, when the key of the second file is the [API_KEY] the first
    one reads: same routes, same key check, same handlers. *)
Theorem servers_agree (environ : gmap string string) env r st :
  URLPath r ≠ ["health"] →
  agree env
    (ServeHTTP (App.routes (App.authMiddleware (Getenv environ "API_KEY")))
       env newResponseWriter r st)
    (ServeHTTP (MainGo.routes environ) env newResponseWriter r st).
Proof.
  intros Hpath. unfold ServeHTTP, muxMatch.
  case_decide as Hclean; [clear Hclean | apply agree_refl].
  unfold App.routes, MainGo.routes, HandleFunc.
  cbn [app routeMatch rpath rmethod rhandler].
  destruct (URLPath r) as [|p [|x [|y path]]]; simpl.
  - apply agree_refl.
  - repeat case_decide; simplify_eq; try done; try apply agree_refl;
      apply authMiddleware_agree;
      first [apply GetBooks_agree | apply CreateBook_agree].
  - repeat case_decide; simplify_eq; try done; try apply agree_refl;
      apply authMiddleware_agree;
      first [apply GetBook_agree | apply UpdateBook_agree | apply DeleteBook_agree].
  - repeat case_decide; apply agree_refl.
Qed.
End Agree.

(** ** Requests that only read *)

Section ReadOnly.
Context `{TimeFormat}.

(** X6.  A [GET] request never changes the cache or the table, on either
    server: with or without the key, for a known or an unknown path, whatever
    the database would answer. *)
Theorem get_changes_nothing (secret : string) (environ : gmap string string)
    (env : Env) (w : ResponseWriter) (r : Request) (st : State) :
  Method r = "GET" →
  (ServeHTTP (App.routes (App.authMiddleware secret)) env w r st).2 = st ∧
  (ServeHTTP (MainGo.routes environ) env w r st).2 = st.
Proof.
  intros Hget. split; unfold ServeHTTP.
  - destruct (muxMatch _ r) as [h vars| | |path] eqn:Hmatch; [|done..].
    destruct (App_dispatch_cases _ _ _ _ Hmatch)
      as [(->&_)|[(->&_)|[(->&_)|[(_&Hm&_)|[(_&Hm&_)|(_&Hm&_)]]]]];
      try (rewrite Hget in Hm; done); try done;
      unfold App.authMiddleware, App.GetBooks, App.GetBook;
      repeat case_decide; try done; by repeat case_match.
  - destruct (muxMatch _ r) as [h vars| | |path] eqn:Hmatch; [|done..].
    destruct (MainGo_dispatch_cases _ _ _ _ Hmatch)
      as [(->&_)|[(->&_)|[(_&Hm&_)|[(_&Hm&_)|(_&Hm&_)]]]];
      try (rewrite Hget in Hm; done);
      unfold MainGo.authMiddleware, MainGo.GetBooks, MainGo.GetBook;
      repeat case_decide; try done; by repeat case_match.
Qed.
End ReadOnly.

(** ** The mirror is kept *)

Section MirrorKept.
Context `{TimeFormat}.
Implicit Types (env : Env) (r : Request) (st : State).

Lemma mirrorsRow_scanRow (row : Row) : mirrorsRow (scanRow row) row.
Proof. unfold mirrorsRow. simpl. tauto. Qed.

Lemma mirrorsRow_loadRow (row : Row) : mirrorsRow (loadRow row) row.
Proof. unfold mirrorsRow. simpl. tauto. Qed.

Lemma mirror_loaded (tbl : list Row) : Forall2 mirrorsRow (map loadRow tbl) tbl.
Proof.
  induction tbl as [|row tbl IH]; simpl; constructor; [apply mirrorsRow_loadRow | done].
Qed.

Lemma mirror_ids (bs : list Book) (tbl : list Row) :
  Forall2 mirrorsRow bs tbl → map ID bs = map rid tbl.
Proof.
  induction 1 as [|b row bs tbl Hb _ IH]; simpl; [done|].
  destruct Hb as [-> _]. by rewrite IH.
Qed.

Lemma mirror_absent (id : string) (bs : list Book) (tbl : list Row) :
  Forall2 mirrorsRow bs tbl →
  Forall (λ c, ID c ≠ id) bs ↔ Forall (λ row, rid row ≠ id) tbl.
Proof.
  induction 1 as [|b row bs tbl Hb _ IH]; [done|].
  destruct Hb as [Hid _]. rewrite !Forall_cons, IH, Hid. done.
Qed.

(** In a mirror, the first cached entry with an id sits where the one row
    with that id sits. *)
Lemma mirror_split (id : string) (pre post : list Book) (c : Book) (tbl : list Row) :
  Forall2 mirrorsRow (pre ++ c :: post) tbl → NoDup (map rid tbl) → ID c = id →
  ∃ tpre row tpost,
    tbl = tpre ++ row :: tpost ∧
    Forall2 mirrorsRow pre tpre ∧ mirrorsRow c row ∧ Forall2 mirrorsRow post tpost ∧
    rid row = id ∧
    Forall (λ x, rid x ≠ id) tpre ∧ Forall (λ x, rid x ≠ id) tpost ∧
    NoDup (map rid (tpre ++ tpost)).
Proof.
  intros Hm Hnd Hc.
  apply Forall2_app_inv_l in Hm as (tpre & k & Hpre & Hk & ->).
  apply Forall2_cons_inv_l in Hk as (row & tpost & Hrow & Hpost & ->).
  exists tpre, row, tpost.
  assert (rid row = id) as Hid by (destruct Hrow as [<- _]; done).
  rewrite map_app in Hnd. simpl in Hnd.
  apply NoDup_app in Hnd as (Hnd1 & Hdisj & Hnd2).
  apply NoDup_cons in Hnd2 as [Hnotin Hnd2].
  do 5 (split; [done|]). split; [|split].
  - apply Forall_forall. intros x Hx Hxid. apply (Hdisj (rid x)).
    + by apply list_elem_of_fmap_2.
    + rewrite Hxid, <- Hid. by left.
  - apply Forall_forall. intros x Hx Hxid. apply Hnotin.
    rewrite Hid, <- Hxid. by apply list_elem_of_fmap_2.
  - rewrite map_app. apply NoDup_app. repeat split; [done| |done].
    intros x Hx1 Hx2. apply (Hdisj x Hx1). by right.
Qed.

Lemma filter_keep_all (id : string) (tbl : list Row) :
  Forall (λ x, rid x ≠ id) tbl → filter (λ x, rid x ≠ id) tbl = tbl.
Proof.
  induction 1 as [|x tbl Hx _ IH]; [done|].
  by rewrite filter_cons, decide_True, IH.
Qed.

Lemma map_update_none (id title author : string) (year : Z) (tbl : list Row) :
  Forall (λ x, rid x ≠ id) tbl →
  map (λ x, if decide (rid x = id)
            then mkRow (rid x) title author year (rregdate x) else x) tbl = tbl.
Proof.
  induction 1 as [|x tbl Hx _ IH]; simpl; [done|].
  by rewrite decide_False, IH.
Qed.

Lemma select_unique (id : string) (tpre tpost : list Row) (row : Row) :
  Forall (λ x, rid x ≠ id) tpre → rid row = id →
  sqlSelectById id (tpre ++ row :: tpost) = Some row.
Proof.
  intros Hpre Hid. unfold sqlSelectById. rewrite filter_app, filter_cons.
  rewrite decide_True by done.
  replace (filter (λ x, rid x = id) tpre) with (@nil Row); [done|].
  symmetry. by apply filter_id_nil.
Qed.

Lemma CreateBook_early env r st :
  queryErr env = None →
  StatusCode (App.CreateBook env newResponseWriter r st).1 ≠ StatusCreated →
  (App.CreateBook env newResponseWriter r st).2 = st.
Proof.
  intros Hq. unfold App.CreateBook, dbExec, dbQueryRow. fold jsonWriter. rewrite Hq.
  destruct (Body r) as [book|]; [|done]. destruct (execErr env); [done|].
  destruct (inserted_top1 env (Title book) (Author book) (Year book) (table st))
    as [row ->].
  cbn [fst]. by autorewrite with reply.
Qed.

Lemma UpdateBook_early env r st :
  noLateError env →
  StatusCode (App.UpdateBook env newResponseWriter r st).1 ≠ StatusOK →
  (App.UpdateBook env newResponseWriter r st).2 = st.
Proof.
  intros [Hr Hq] Hno.
  destruct (Body r) as [book|] eqn:Hbody.
  2:{ unfold App.UpdateBook. by rewrite Hbody. }
  destruct (execErr env) as [e|] eqn:Hexec.
  { unfold App.UpdateBook, dbExec. by rewrite Hbody, Hexec. }
  destruct (sqlSelectById (mapIndex (Vars r) "id") (table st)) as [row|] eqn:Hrow.
  - exfalso. apply Hno. rewrite (UpdateBook_done _ _ _ _ _ Hbody Hexec Hr Hq Hrow).
    unfold updateDone. cbn [fst]. by autorewrite with reply.
  - apply sqlSelectById_None in Hrow.
    unfold App.UpdateBook, dbExec, RowsAffected.
    rewrite Hbody, Hexec. cbn [sqlUpdate]. rewrite Hr.
    rewrite decide_True by by apply affected_zero.
    cbn [snd]. rewrite map_update_none by done. by destruct st.
Qed.

Lemma DeleteBook_early env r st :
  rowsAffectedErr env = None →
  StatusCode (App.DeleteBook env newResponseWriter r st).1 ≠ StatusOK →
  (App.DeleteBook env newResponseWriter r st).2 = st.
Proof.
  intros Hr Hno.
  destruct (execErr env) as [e|] eqn:Hexec.
  { unfold App.DeleteBook, dbExec. by rewrite Hexec. }
  destruct (decide (Forall (λ row, rid row ≠ mapIndex (Vars r) "id") (table st)))
    as [Habs|Hrow].
  - unfold App.DeleteBook, dbExec, RowsAffected.
    rewrite Hexec. cbn [sqlDelete]. rewrite Hr.
    rewrite decide_True by by apply affected_zero.
    cbn [snd]. rewrite filter_keep_all by done. by destruct st.
  - exfalso. apply Hno. rewrite (DeleteBook_done _ _ _ Hexec Hr Hrow).
    unfold deleteDone. cbn [fst]. by autorewrite with reply.
Qed.

(** X10.  When no call made after the statement fails, an answer other than 201
    from [CreateBook], or other than 200 from [UpdateBook] or [DeleteBook],
    comes with the table, and not only the cache, exactly as it was. *)
Theorem early_failure_changes_nothing env r st :
  noLateError env →
  (StatusCode (App.CreateBook env newResponseWriter r st).1 ≠ StatusCreated →
     (App.CreateBook env newResponseWriter r st).2 = st) ∧
  (StatusCode (App.UpdateBook env newResponseWriter r st).1 ≠ StatusOK →
     (App.UpdateBook env newResponseWriter r st).2 = st) ∧
  (StatusCode (App.DeleteBook env newResponseWriter r st).1 ≠ StatusOK →
     (App.DeleteBook env newResponseWriter r st).2 = st).
Proof.
  intros Hlate. split; [|split].
  - apply CreateBook_early, Hlate.
  - by apply UpdateBook_early.
  - apply DeleteBook_early, Hlate.
Qed.

Lemma CreateBook_keeps_mirror env r st :
  mirrors st → freshFor env st → queryErr env = None →
  mirrors (App.CreateBook env newResponseWriter r st).2.
Proof.
  intros [Hm Hnd] [Hid Hlate] Hq.
  destruct (decide (StatusCode (App.CreateBook env newResponseWriter r st).1 = StatusCreated))
    as [Hok|Hno]; [|by rewrite CreateBook_early].
  destruct (CreateBook_created _ _ _ Hok) as (book & row & _ & _ & _ & Htop & ->).
  unfold sqlInsert in *. rewrite sqlSelectTop1_last in Htop by done.
  injection Htop as <-. split; cbn [snd books table].
  - apply Forall2_app; [done|]. constructor; [apply mirrorsRow_scanRow | constructor].
  - rewrite map_app. simpl. apply NoDup_app. repeat split; [done| |apply NoDup_singleton].
    intros x Hx Hx'. apply list_elem_of_singleton in Hx'. by subst x.
Qed.

Lemma UpdateBook_keeps_mirror env r st :
  mirrors st → noLateError env →
  mirrors (App.UpdateBook env newResponseWriter r st).2.
Proof.
  intros [Hm Hnd] Hlate.
  destruct (decide (StatusCode (App.UpdateBook env newResponseWriter r st).1 = StatusOK))
    as [Hok|Hno]; [|by rewrite UpdateBook_early].
  destruct (UpdateBook_ok _ _ _ Hok) as (book & row & Hb & He & Hr & Hq & Hrow).
  rewrite (UpdateBook_done _ _ _ _ _ Hb He Hr Hq Hrow). unfold updateDone.
  cbn [snd]. split; cbn [books table].
  2:{ by rewrite (proj1 (sqlUpdate_keeps _ _ _ _ _)). }
  destruct (rangeFirst _ (books st) 0) as [[i c]|] eqn:Hfirst.
  - destruct (rangeFirst_Some _ _ _ _ _ Hfirst) as (pre & post & Hbs & Hpre & Hc & ->).
    rewrite Hbs in Hm |- *.
    destruct (mirror_split _ _ _ _ _ Hm Hnd Hc)
      as (tpre & rw & tpost & Htbl & Hmpre & Hmc & Hmpost & Hid & Hnpre & Hnpost & _).
    rewrite Htbl in Hrow |- *. rewrite (select_unique _ _ _ _ Hnpre Hid) in Hrow.
    injection Hrow as <-. simpl. rewrite insert_at_split.
    rewrite map_app. simpl. rewrite !map_update_none by done.
    rewrite decide_True by done.
    apply Forall2_app; [done|]. constructor; [|done].
    unfold mirrorsRow, updatedOf. simpl. tauto.
  - exfalso. apply rangeFirst_None in Hfirst.
    apply (mirror_absent _ _ _ Hm) in Hfirst. apply sqlSelectById_None in Hfirst.
    congruence.
Qed.

Lemma DeleteBook_keeps_mirror env r st :
  mirrors st → rowsAffectedErr env = None →
  mirrors (App.DeleteBook env newResponseWriter r st).2.
Proof.
  intros [Hm Hnd] Hr.
  destruct (decide (StatusCode (App.DeleteBook env newResponseWriter r st).1 = StatusOK))
    as [Hok|Hno]; [|by rewrite DeleteBook_early].
  destruct (DeleteBook_ok _ _ _ Hok) as (He & _ & Hrow).
  rewrite (DeleteBook_done _ _ _ He Hr Hrow). unfold deleteDone. cbn [snd].
  destruct (rangeFirst _ (books st) 0) as [[i c]|] eqn:Hfirst.
  - destruct (rangeFirst_Some _ _ _ _ _ Hfirst) as (pre & post & Hbs & Hpre & Hc & ->).
    rewrite Hbs in Hm |- *.
    destruct (mirror_split _ _ _ _ _ Hm Hnd Hc)
      as (tpre & rw & tpost & Htbl & Hmpre & Hmc & Hmpost & Hid & Hnpre & Hnpost & Hnd').
    rewrite Htbl. simpl. rewrite remove_at_split.
    rewrite filter_app, filter_cons, decide_False by (by intros Hne; apply Hne).
    rewrite !filter_keep_all by done.
    split; cbn [books table]; [by apply Forall2_app | done].
  - exfalso. apply rangeFirst_None in Hfirst.
    by apply (mirror_absent _ _ _ Hm) in Hfirst.
Qed.

(** X17.  Each handler keeps the mirror: from a state in which the cache stands for
    the table row by row and ids are unique, with no call failing after the
    statement, the state after [UpdateBook] or [DeleteBook] is again such a
    state, and so is the state after [CreateBook] when the engine gives an
    unused id and [GETDATE()] is later than every stored regdate. *)
Theorem handlers_keep_mirror env r st :
  mirrors st → noLateError env →
  (freshFor env st → mirrors (App.CreateBook env newResponseWriter r st).2) ∧
  mirrors (App.UpdateBook env newResponseWriter r st).2 ∧
  mirrors (App.DeleteBook env newResponseWriter r st).2.
Proof.
  intros Hm Hlate. split; [|split].
  - intros Hfresh. apply CreateBook_keeps_mirror; [done..|apply Hlate].
  - by apply UpdateBook_keeps_mirror.
  - apply DeleteBook_keeps_mirror; [done|apply Hlate].
Qed.
End MirrorKept.

(** ** From start-up on *)

Section Runs2.
Context `{TimeFormat}.
Implicit Types (env : Env) (r : Request) (st : State).

Lemma App_main_state (environ e : gmap string string) (boot : Boot) (tbl : list Row)
    (addr : string) (router : list Route) (st0 : State) :
  App.main environ boot tbl = ListenAndServe addr router e st0 →
  st0 = mkState (map loadRow (rowsNext boot tbl)) tbl.
Proof.
  unfold App.main. repeat case_match; try done. intros [= <- <- <- <-].
  match goal with Hl : App.loadBooks _ _ _ = inr _ |- _ =>
    by destruct (App_loadBooks_inr _ _ _ _ Hl) as [-> _] end.
Qed.

Lemma MainGo_main_state (environ e : gmap string string) (boot : Boot) (tbl : list Row)
    (addr : string) (router : list Route) (st0 : State) :
  MainGo.main environ boot tbl = ListenAndServe addr router e st0 →
  st0 = mkState (map loadRow (rowsNext boot tbl)) tbl.
Proof.
  unfold MainGo.main. repeat case_match; try done. intros [= <- <- <- <-].
  match goal with Hl : MainGo.loadBooks _ _ _ = inr _ |- _ =>
    by destruct (MainGo_loadBooks_inr _ _ _ _ Hl) as [-> _] end.
Qed.

(** X4.  When either [main] reaches [http.ListenAndServe], the cache holds one
    book per row that [rows.Next()] handed over, in the order of the rows,
    with the id, title, author and year of the row and the regdate as
    [Format] renders it.  After a fetch error these are only the rows before
    the error, and the server starts all the same; without one they are all
    the rows of the table, and with unique ids in the table the state is then
    a mirror. *)
Theorem main_loads_mirror (environ e : gmap string string) (boot : Boot) (tbl : list Row)
    (addr : string) (router : list Route) (st0 : State) :
  App.main environ boot tbl = ListenAndServe addr router e st0 ∨
  MainGo.main environ boot tbl = ListenAndServe addr router e st0 →
  table st0 = tbl ∧
  (∀ n, nextErr boot = Some n → books st0 = map loadRow (take n tbl)) ∧
  (nextErr boot = None →
     books st0 = map loadRow tbl ∧ length (books st0) = length tbl ∧
     (NoDup (map rid tbl) → mirrors st0)).
Proof.
  intros Hmain.
  assert (st0 = mkState (map loadRow (rowsNext boot tbl)) tbl) as ->.
  { destruct Hmain as [Hmain|Hmain];
      [by eapply App_main_state | by eapply MainGo_main_state]. }
  cbn [books table]. unfold rowsNext. split; [done|]. split.
  - by intros n ->.
  - intros ->. rewrite length_map. do 2 (split; [done|]).
    intros Hnd. split; [apply mirror_loaded | done].
Qed.

Lemma App_serve_keeps_mirror (secret : string) env r st :
  mirrors st → freshFor env st → noLateError env →
  mirrors (ServeHTTP (App.routes (App.authMiddleware secret)) env newResponseWriter r st).2.
Proof.
  intros Hm Hfresh Hlate. unfold ServeHTTP.
  destruct (muxMatch _ r) as [h vars| | |path] eqn:Hmatch; [|done..].
  destruct (App_dispatch_cases _ _ _ _ Hmatch)
    as [(->&_)|[(->&_)|[(->&_)|[(->&_)|[(->&_)|(->&_)]]]]]; try done;
    unfold App.authMiddleware; repeat case_decide; try done.
  - unfold App.GetBook. by repeat case_match.
  - apply CreateBook_keeps_mirror; [done..|apply Hlate].
  - by apply UpdateBook_keeps_mirror.
  - apply DeleteBook_keeps_mirror; [done|apply Hlate].
Qed.

Lemma serveAll_length (router : list Route) (reqs : list (Env * Request)) st :
  length (serveAll router reqs st).1 = length reqs.
Proof.
  revert st. induction reqs as [|[env r] reqs IH]; intros st; simpl; [done|].
  by rewrite IH.
Qed.

(** X18.  The server of the second file keeps the mirror along any run: started on
    a table with unique ids whose rows [rows.Next()] handed over without a
    fetch error, after any sequence of requests, each answered in turn, in
    which no call fails after its statement, new ids are unused and
    [GETDATE()] is later than the stored regdates, the cache still stands for
    the table row by row, whatever the requests are and whether or not they
    carry the key. *)
Theorem run_keeps_mirror (environ e : gmap string string) (boot : Boot) (tbl : list Row)
    (addr : string) (router : list Route) (st0 : State) (reqs : list (Env * Request)) :
  App.main environ boot tbl = ListenAndServe addr router e st0 →
  nextErr boot = None →
  NoDup (map rid tbl) → admissible router reqs st0 →
  mirrors (serveAll router reqs st0).2 ∧
  length (serveAll router reqs st0).1 = length reqs.
Proof.
  intros Hmain Hnext Hnd Hadm. split; [|apply serveAll_length].
  destruct (App_main_listening _ _ _ _ _ _ _ Hmain) as (config & _ & -> & _).
  assert (mirrors st0) as Hm.
  { rewrite (App_main_state _ _ _ _ _ _ _ Hmain). unfold rowsNext. rewrite Hnext.
    split; [apply mirror_loaded | done]. }
  clear Hmain. revert st0 Hm Hadm.
  induction reqs as [|[env r] reqs IH]; intros st Hm Hadm; simpl; [done|].
  destruct Hadm as (Hfresh & Hlate & Hadm).
  apply IH; [|done]. by apply App_serve_keeps_mirror.
Qed.

(** X19.  In a mirror, reads answer for the table: get-by-id is answered 200
    exactly for the ids the table holds, with a book that stands for the row
    with that id, and the list has one book per row, in the order of the
    rows. *)
Theorem mirror_reads env r st :
  mirrors st →
  (∀ row, sqlSelectById (mapIndex (Vars r) "id") (table st) = Some row →
     ∃ b, mirrorsRow b row ∧
          App.GetBook env newResponseWriter r st = (Encode (EncBook b) jsonWriter, st) ∧
          StatusCode (App.GetBook env newResponseWriter r st).1 = StatusOK) ∧
  (sqlSelectById (mapIndex (Vars r) "id") (table st) = None →
     StatusCode (App.GetBook env newResponseWriter r st).1 = StatusNotFound) ∧
  ∃ bs, wbody (App.GetBooks env newResponseWriter r st).1 = [EncBooks bs] ∧
        Forall2 mirrorsRow bs (table st).
Proof.
  intros [Hm Hnd]. split; [|split].
  - intros row Hrow.
    destruct (rangeFirst (mapIndex (Vars r) "id") (books st) 0) as [[i c]|] eqn:Hfirst.
    + destruct (rangeFirst_Some _ _ _ _ _ Hfirst) as (pre & post & Hbs & Hpre & Hc & ->).
      rewrite Hbs in Hm.
      destruct (mirror_split _ _ _ _ _ Hm Hnd Hc)
        as (tpre & rw & tpost & Htbl & _ & Hmc & _ & Hid & Hnpre & _).
      rewrite Htbl, (select_unique _ _ _ _ Hnpre Hid) in Hrow. injection Hrow as <-.
      exists c. split; [done|]. rewrite (GetBook_found _ _ _ _ _ Hfirst).
      split; [done|]. cbn [fst]. by autorewrite with reply.
    + exfalso. apply rangeFirst_None in Hfirst.
      apply (mirror_absent _ _ _ Hm) in Hfirst. apply sqlSelectById_None in Hfirst.
      congruence.
  - intros Hnone. apply GetBook_missing. apply rangeFirst_None.
    apply (mirror_absent _ _ _ Hm). by apply sqlSelectById_None.
  - exists (books st). split; [|done]. unfold App.GetBooks. fold jsonWriter.
    cbn [fst]. by autorewrite with reply.
Qed.
End Runs2.

(** ** Concrete runs of the further properties *)

Section Runs3.
#[local] Existing Instance sampleTime.

Lemma App_main_sample :
  App.main environFull bootPlain [rowDune]
  = ListenAndServe ":8000" (App.routes (App.authMiddleware "s3cret")) environFull startState.
Proof.
  rewrite App_main_starts; [reflexivity| |by repeat split].
  repeat split; vm_compute; discriminate.
Qed.

Lemma startState_mirrors : mirrors startState.
Proof.
  split; [apply (mirror_loaded [rowDune])|]. repeat constructor. by intros Hin%elem_of_nil.
Qed.

(** The configuration read from the sample environment, where [PORT] is
    unset. *)
Lemma loadConfig_complete_run :
  let config := App.mkConfig "db.local" "sa" "pw" "1433" "bz" "s3cret" "8000" in
  App.loadConfig environFull bootPlain = inr config ∧
  App.APIKey config ≠ "" ∧ App.Port config = "8000".
Proof.
  intros config.
  assert (App.loadConfig environFull bootPlain = inr config) as Hcfg
    by (vm_compute; reflexivity).
  destruct (loadConfig_complete environFull bootPlain config Hcfg)
    as (_ & _ & _ & _ & Hkey & _ & _ & _ & Hport).
  split; [exact Hcfg|]. split; [exact Hkey|]. apply Hport. vm_compute. reflexivity.
Defined.

(** With the key the second file starts without any [.env]; without the key
    it does not. *)
Lemma App_main_listens_iff_run :
  is_Some (listenAddr (App.main environFull bootPlain [rowDune])) ∧
  ¬ is_Some (listenAddr (App.main environNoKey bootPlain [rowDune])).
Proof.
  split.
  - apply (proj2 (App_main_listens_iff environFull bootPlain [rowDune])).
    split; [repeat split; vm_compute; discriminate|].
    do 5 (split; [reflexivity|]). right. reflexivity.
  - intros Hsome.
    apply (proj1 (App_main_listens_iff environNoKey bootPlain [rowDune])) in Hsome.
    destruct Hsome as ((_ & _ & _ & _ & Hkey) & _). by apply Hkey.
Defined.

(** [src/main.go] starts without the key when [.env] loads, and does not
    start without a [.env] file. *)
Lemma MainGo_main_listens_iff_run :
  listenAddr (MainGo.main environNoKey bootDotenv [rowDune]) = Some ":8000" ∧
  ¬ is_Some (listenAddr (MainGo.main environFull bootPlain [rowDune])).
Proof.
  destruct (MainGo_main_listens_iff environNoKey bootDotenv [rowDune]) as [Hiff Haddr].
  destruct (MainGo_main_listens_iff environFull bootPlain [rowDune]) as [Hiff' _].
  split.
  - assert (is_Some (listenAddr (MainGo.main environNoKey bootDotenv [rowDune])))
      as [addr Hsome].
    { apply Hiff. split; [reflexivity|]. split; [by eexists|].
      do 5 (split; [reflexivity|]). right. reflexivity. }
    rewrite Hsome. f_equal. by apply Haddr.
  - intros Hsome. apply Hiff' in Hsome. by destruct Hsome as [Hex _].
Defined.

(** The state the second file starts from on a table holding Dune; when
    fetching the rows fails before the first row, it starts with an empty
    cache on the same table. *)
Lemma main_loads_mirror_run :
  books startState = [mkBook "7" "Dune" "Herbert" 1965 "layout:200"] ∧
  mirrors startState ∧
  App.main environFull bootFetchErr [rowDune]
    = ListenAndServe ":8000" (App.routes (App.authMiddleware "s3cret")) environFull
        (mkState [] [rowDune]) ∧
  books (mkState [] [rowDune]) = map loadRow (take 0 [rowDune]).
Proof.
  destruct (main_loads_mirror environFull environFull bootPlain [rowDune] ":8000"
              (App.routes (App.authMiddleware "s3cret")) startState)
    as (_ & _ & Hall); [left; apply App_main_sample|].
  destruct (Hall eq_refl) as (Hbooks & _ & Hm).
  assert (App.main environFull bootFetchErr [rowDune]
          = ListenAndServe ":8000" (App.routes (App.authMiddleware "s3cret")) environFull
              (mkState [] [rowDune])) as Hcut.
  { rewrite App_main_starts; [reflexivity| |by repeat split].
    repeat split; vm_compute; discriminate. }
  destruct (main_loads_mirror environFull environFull bootFetchErr [rowDune] ":8000"
              (App.routes (App.authMiddleware "s3cret")) (mkState [] [rowDune]))
    as (_ & Hsome & _); [left; exact Hcut|].
  split; [exact Hbooks|]. split; [|split; [exact Hcut|]].
  - apply Hm. repeat constructor. by intros Hin%elem_of_nil.
  - by apply Hsome.
Defined.

(** [PUT /books/7] reaches [UpdateBook] behind the middleware; [PATCH] on
    the same path is answered 405; [DELETE /books//7] is answered 301 to
    [/books/7] and deletes nothing. *)
Lemma App_routing_table_run :
  ServeHTTP (App.routes (App.authMiddleware "s3cret")) (envOk "" 0) newResponseWriter
    (putBook "7" duneRev) startState
  = App.authMiddleware "s3cret" App.UpdateBook (envOk "" 0) newResponseWriter
      (putBook "7" duneRev) startState ∧
  StatusCode (ServeHTTP (App.routes (App.authMiddleware "s3cret")) (envOk "" 0)
                newResponseWriter
                (mkRequest "PATCH" ["books"; "7"] (withKey "s3cret") ∅ None)
                startState).1 = StatusMethodNotAllowed ∧
  ServeHTTP (App.routes (App.authMiddleware "s3cret")) (envOk "" 0) newResponseWriter
    (mkRequest "DELETE" ["books"; ""; "7"] (withKey "s3cret") ∅ None) startState
  = (mkResponseWriter {[ "Location" := "/books/7" ]} (Some 301) [], startState).
Proof.
  split; [|split].
  - destruct (App_routing_table (App.authMiddleware "s3cret") (envOk "" 0)
                newResponseWriter (putBook "7" duneRev) startState) as (_ & Hid & _).
    destruct (Hid "7") as (_ & Hput & _); [done | done | done | reflexivity|].
    by apply Hput.
  - destruct (App_routing_table (App.authMiddleware "s3cret") (envOk "" 0)
                newResponseWriter
                (mkRequest "PATCH" ["books"; "7"] (withKey "s3cret") ∅ None)
                startState) as (_ & Hid & _).
    destruct (Hid "7") as (_ & _ & _ & H405); [done | done | done | reflexivity|].
    rewrite H405; [reflexivity|done..].
  - destruct (App_routing_table (App.authMiddleware "s3cret") (envOk "" 0)
                newResponseWriter
                (mkRequest "DELETE" ["books"; ""; "7"] (withKey "s3cret") ∅ None)
                startState) as (_ & _ & _ & _ & H301).
    rewrite H301; [reflexivity|]. vm_compute. discriminate.
Defined.

(** A get-by-id through the router leaves the state alone. *)
Lemma get_changes_nothing_run :
  (ServeHTTP (App.routes (App.authMiddleware "s3cret")) (envOk "" 0) newResponseWriter
     (getBook "7") startState).2 = startState ∧
  (ServeHTTP (MainGo.routes environFull) (envOk "" 0) newResponseWriter
     (getBook "7") startState).2 = startState.
Proof.
  by apply (get_changes_nothing "s3cret" environFull (envOk "" 0) newResponseWriter
              (getBook "7") startState).
Defined.

(** An update whose re-read fails: 500, the cache as it was, the row
    revised. *)
Lemma failure_leaves_cache_run :
  StatusCode (App.UpdateBook envQueryFails newResponseWriter (putBook "7" duneRev)
                startState).1 = StatusInternalServerError ∧
  books (App.UpdateBook envQueryFails newResponseWriter (putBook "7" duneRev)
           startState).2 = books startState.
Proof.
  split; [reflexivity|].
  destruct (failure_leaves_cache envQueryFails (putBook "7" duneRev) startState)
    as (_ & Hupd & _).
  apply Hupd. vm_compute. discriminate.
Defined.

Lemma late_failure_writes_run :
  StatusCode (App.UpdateBook envQueryFails newResponseWriter (putBook "7" duneRev)
                startState).1 = StatusInternalServerError ∧
  table (App.UpdateBook envQueryFails newResponseWriter (putBook "7" duneRev)
           startState).2 = [mkRow "7" "Dune (rev)" "Herbert" 1965 200] ∧
  table (App.DeleteBook envRowsFail newResponseWriter (deleteBook "7") startState).2 = [] ∧
  books (App.DeleteBook envRowsFail newResponseWriter (deleteBook "7") startState).2
    = books startState.
Proof.
  destruct (late_failure_writes envQueryFails (putBook "7" duneRev) startState eq_refl)
    as [Hupd _].
  destruct (Hupd duneRev eq_refl) as (H500 & _ & Htbl & _).
  { right. split; [by eexists|]. intros Hall. by inversion Hall. }
  destruct (late_failure_writes envRowsFail (deleteBook "7") startState eq_refl)
    as [_ Hdel].
  destruct Hdel as (_ & Hbooks & Htbl' & _); [by eexists|].
  split; [exact H500|]. split; [by rewrite Htbl|]. split; [by rewrite Htbl'|exact Hbooks].
Defined.

(** An update of the cached book, then a get of it; and an update of a book
    the table holds and the cache does not, then a get of it. *)
Lemma update_then_get_run :
  let updated := App.UpdateBook (envOk "" 0) newResponseWriter (putBook "7" duneRev)
                   startState in
  let uncached := App.UpdateBook (envOk "" 0) newResponseWriter (putBook "7" duneRev)
                    (mkState [] [rowDune]) in
  wbody (App.GetBook (envOk "" 0) newResponseWriter (getBook "7") updated.2).1
    = [EncBook (mkBook "7" "Dune (rev)" "Herbert" 1965 "scan:200")] ∧
  StatusCode uncached.1 = StatusOK ∧
  StatusCode (App.GetBook (envOk "" 0) newResponseWriter (getBook "7") uncached.2).1
    = StatusNotFound.
Proof.
  intros updated uncached.
  destruct (update_then_get (envOk "" 0) (envOk "" 0) (putBook "7" duneRev) (getBook "7")
              startState eq_refl eq_refl) as [Hhit _].
  destruct (update_then_get (envOk "" 0) (envOk "" 0) (putBook "7" duneRev) (getBook "7")
              (mkState [] [rowDune]) eq_refl eq_refl) as [_ Hmiss].
  split; [|split; [reflexivity|]].
  - destruct Hhit as [_ Hbody]; [intros Hall; by inversion Hall|].
    fold updated in Hbody. by rewrite Hbody.
  - apply Hmiss. constructor.
Defined.

(** A create at a later time than the stored regdate returns Emma; the same
    create at an earlier time returns Dune. *)
Lemma create_returns_inserted_run :
  wbody (App.CreateBook (envOk "8" 300) newResponseWriter (postBook emma) startState).1
  = [EncBook (mkBook "8" "Emma" "Austen" 1815 "scan:300")].
Proof.
  destruct (create_returns_inserted (envOk "8" 300) (postBook emma) startState emma)
    as [_ Hbody]; [reflexivity | reflexivity | reflexivity | |exact Hbody].
  repeat constructor.
Defined.

Lemma create_returns_other_run :
  wbody (App.CreateBook (envOk "8" 100) newResponseWriter (postBook emma) startState).1
  = [EncBook (mkBook "7" "Dune" "Herbert" 1965 "scan:200")].
Proof.
  destruct (create_returns_other (envOk "8" 100) (postBook emma) startState emma rowDune)
    as (row & Hin & _ & _ & Hbody & _);
    [reflexivity | reflexivity | reflexivity | by left | done |].
  rewrite Hbody. apply list_elem_of_singleton in Hin. by subst row.
Defined.

(** Delete Dune, then delete it again and update it. *)
Lemma delete_then_not_found_run :
  let deleted := App.DeleteBook (envOk "" 0) newResponseWriter (deleteBook "7") startState in
  StatusCode deleted.1 = StatusOK ∧
  StatusCode (App.DeleteBook (envOk "" 0) newResponseWriter (deleteBook "7") deleted.2).1
    = StatusNotFound ∧
  StatusCode (App.UpdateBook (envOk "" 0) newResponseWriter (putBook "7" duneRev) deleted.2).1
    = StatusNotFound.
Proof.
  intros deleted. split; [reflexivity|].
  destruct (delete_then_not_found (envOk "" 0) (envOk "" 0) (deleteBook "7")
              (deleteBook "7") startState eq_refl eq_refl eq_refl eq_refl)
    as (H404 & _ & _).
  destruct (delete_then_not_found (envOk "" 0) (envOk "" 0) (deleteBook "7")
              (putBook "7" duneRev) startState eq_refl eq_refl eq_refl eq_refl)
    as (_ & _ & Hupd).
  split; [exact H404|]. by destruct Hupd as [? _]; [by eexists|].
Defined.

(** The two files on an update, and on a delete whose [db.Exec] fails. *)
Lemma handlers_agree_run :
  wbody (App.UpdateBook (envOk "" 0) newResponseWriter (putBook "7" duneRev) startState).1
  = wbody (MainGo.UpdateBook (envOk "" 0) newResponseWriter (putBook "7" duneRev)
             startState).1 ∧
  StatusCode (App.DeleteBook envExecFails newResponseWriter (deleteBook "7") startState).1
  = StatusCode (MainGo.DeleteBook envExecFails newResponseWriter (deleteBook "7")
                  startState).1.
Proof.
  destruct (handlers_agree (envOk "" 0) (putBook "7" duneRev) startState)
    as (_ & _ & _ & (_ & _ & Hbody) & _).
  destruct (handlers_agree envExecFails (deleteBook "7") startState)
    as (_ & _ & _ & _ & (Hstatus & _)).
  split; [by apply Hbody | exact Hstatus].
Defined.

Lemma servers_agree_run :
  (ServeHTTP (App.routes (App.authMiddleware "s3cret")) (envOk "" 0) newResponseWriter
     (putBook "7" duneRev) startState).2
  = (ServeHTTP (MainGo.routes environFull) (envOk "" 0) newResponseWriter
       (putBook "7" duneRev) startState).2.
Proof.
  destruct (servers_agree environFull (envOk "" 0) (putBook "7" duneRev) startState)
    as (_ & Hstate & _); [done|]. exact Hstate.
Defined.

(** An update of an id the table does not hold changes nothing. *)
Lemma early_failure_changes_nothing_run :
  (App.UpdateBook (envOk "" 0) newResponseWriter (putBook "9" duneRev) startState).2
  = startState.
Proof.
  destruct (early_failure_changes_nothing (envOk "" 0) (putBook "9" duneRev) startState)
    as (_ & Hupd & _); [by split|].
  apply Hupd. vm_compute. discriminate.
Defined.

Lemma handlers_keep_mirror_run :
  mirrors (App.CreateBook (envOk "8" 300) newResponseWriter (postBook emma) startState).2 ∧
  mirrors (App.DeleteBook (envOk "8" 300) newResponseWriter (deleteBook "7") startState).2.
Proof.
  pose proof startState_mirrors as Hm.
  destruct (handlers_keep_mirror (envOk "8" 300) (postBook emma) startState Hm)
    as (Hcreate & _ & _); [by split|].
  destruct (handlers_keep_mirror (envOk "8" 300) (deleteBook "7") startState Hm)
    as (_ & _ & Hdelete); [by split|].
  split; [|exact Hdelete]. apply Hcreate. split.
  - simpl. intros Hin. apply list_elem_of_singleton in Hin. done.
  - repeat constructor.
Defined.

(** Create Emma, revise Dune, delete Emma, from start-up. *)
Lemma run_keeps_mirror_run :
  let router := App.routes (App.authMiddleware "s3cret") in
  map StatusCode (serveAll router sampleRun startState).1 = [201; 200; 200] ∧
  (serveAll router sampleRun startState).2
    = mkState [mkBook "7" "Dune (rev)" "Herbert" 1965 "scan:200"]
              [mkRow "7" "Dune (rev)" "Herbert" 1965 200] ∧
  mirrors (serveAll router sampleRun startState).2.
Proof.
  intros router. split; [by vm_compute|]. split; [by vm_compute|].
  apply (run_keeps_mirror environFull environFull bootPlain [rowDune] ":8000" router
           startState sampleRun App_main_sample).
  - reflexivity.
  - repeat constructor. by intros Hin%elem_of_nil.
  - repeat split; try (repeat constructor; done);
      vm_compute; intros Hin; repeat (apply elem_of_cons in Hin as [Hin|Hin]; [done|]);
      by apply elem_of_nil in Hin.
Defined.

(** Reads on the start state. *)
Lemma mirror_reads_run :
  StatusCode (App.GetBook (envOk "" 0) newResponseWriter (getBook "7") startState).1
    = StatusOK ∧
  StatusCode (App.GetBook (envOk "" 0) newResponseWriter (getBook "9") startState).1
    = StatusNotFound.
Proof.
  pose proof startState_mirrors as Hm.
  destruct (mirror_reads (envOk "" 0) (getBook "7") startState Hm) as (Hhit & _ & _).
  destruct (mirror_reads (envOk "" 0) (getBook "9") startState Hm) as (_ & Hmiss & _).
  split.
  - by destruct (Hhit rowDune eq_refl) as (b & _ & _ & H200).
  - by apply Hmiss.
Defined.
End Runs3.
